(** * reddit_population: the aggregation loop, the format classifier and the
      summary reducer of [src/reddit_population.py], embedded in Rocq.

    Python values are the JSON-shaped values an Elasticsearch hit carries.
    A call that can raise returns a [result]; the loop of [main] threads its
    local variables through a record.  The extractors of the module [utils]
    are parameters of [main]; the diagnostics under [VERBOSE], which is
    [False], the connection to the index and the writing of [comms.json] are
    left out.

    Part I embeds the program, Part II names what the properties speak
    about, Part III proves them. *)

From Stdlib Require Import ZArith String Ascii List Bool Lia.
From Stdlib Require Import Floats.
From Stdlib Require Import Sorting.Permutation Sorting.Sorted.
From stdpp Require Import base option gmap strings.

Import ListNotations.
Local Open Scope string_scope.
Local Open Scope Z_scope.
Local Open Scope list_scope.

(** * Part I: the program *)

(** ** Python values *)

(** The values a hit and the results of the extractors are made of: [None],
    [bool], [int], [float], [str], [list] and [dict] with string keys.  A
    Python [str] is modelled by its ASCII characters. *)
#[warnings="-register-all"]
Inductive pyval : Type :=
| PNone
| PBool (b : bool)
| PInt (n : Z)
| PFloat (f : float)
| PStr (s : string)
| PList (l : list pyval)
| PDict (d : gmap string pyval).

(** A hit of [helpers.scan] is a [dict]. *)
Abbreviation dict := (gmap string pyval).

(** The exceptions the modelled code can see; all derive from [Exception]. *)
Inductive exn : Type :=
| AttributeError
| TypeError
| ValueError
| OverflowError
| OtherError (msg : string).

(** A call either returns or raises. *)
Inductive result (A : Type) : Type :=
| Ok (a : A)
| Raised (e : exn).
Arguments Ok {A} a.
Arguments Raised {A} e.

(** Sequencing: an exception ends the computation. *)
Definition bind {A B : Type} (r : result A) (k : A -> result B) : result B :=
  match r with
  | Ok a => k a
  | Raised e => Raised e
  end.

Notation "'let*' x ':=' r 'in' k" := (bind r (fun x => k))
  (at level 10, x name, r at level 100, k at level 200).

(** [try: x = r / except Exception: x = dflt] *)
Definition try_except {A : Type} (r : result A) (dflt : A) : A :=
  match r with
  | Ok a => a
  | Raised _ => dflt
  end.

(** [bool(v)]: the truth value Python gives [v] in [if v:] and [v or w]. *)
Definition py_truthy (v : pyval) : bool :=
  match v with
  | PNone => false
  | PBool b => b
  | PInt n => negb (n =? 0)
  | PFloat f => negb (PrimFloat.eqb f 0%float)
  | PStr s => negb (String.eqb s "")
  | PList l => match l with [] => false | _ :: _ => true end
  | PDict d => negb (bool_decide (d = ∅))
  end.

(** [v or w] *)
Definition py_or (v w : pyval) : pyval := if py_truthy v then v else w.

(** [d.get(k)] and [d.get(k, dflt)] on a [dict]. *)
Definition dict_get (d : dict) (k : string) : pyval := default PNone (d !! k).
Definition dict_get_default (d : dict) (k : string) (dflt : pyval) : pyval :=
  default dflt (d !! k).

(** [v.get(k)] and [v.get(k, dflt)] on any value: only a [dict] has the
    method, every other value raises [AttributeError]. *)
Definition py_get (v : pyval) (k : string) : result pyval :=
  match v with
  | PDict d => Ok (dict_get d k)
  | _ => Raised AttributeError
  end.
Definition py_get_default (v : pyval) (k : string) (dflt : pyval) : result pyval :=
  match v with
  | PDict d => Ok (dict_get_default d k dflt)
  | _ => Raised AttributeError
  end.

(** ** [float(v)] *)

(** [float(n)] on an [int]: the nearest binary64 number, ties to even;
    [OverflowError] when [n] is too large for a finite one. *)
Definition float_of_int (n : Z) : result float :=
  match binary_normalize prec emax n 0 false with
  | S754_infinity _ => Raised OverflowError
  | x => Ok (SF2Prim x)
  end.

(** The binary64 number nearest to [m * 10 ^ e], ties to even, with the sign
    [neg]: the correctly rounded value [float] gives a decimal literal.  Too
    large a value gives an infinity, too small a zero. *)
Definition float_of_decimal (neg : bool) (m : positive) (e : Z) : float :=
  SF2Prim
    (if 0 <=? e then binary_round prec emax neg (m * Z.to_pos (10 ^ e))%positive 0
     else
       let '(q, e', l) := SFdiv_core_binary prec emax (Zpos m) 0 (10 ^ (- e)) 0 in
       binary_round_aux prec emax neg q e' l).

Definition is_space (c : ascii) : bool :=
  let n := nat_of_ascii c in
  ((9 <=? n) && (n <=? 13) || (n =? 32))%nat.

Definition digit_val (c : ascii) : option Z :=
  let n := nat_of_ascii c in
  if ((48 <=? n) && (n <=? 57))%nat then Some (Z.of_nat n - 48) else None.

Definition lower (c : ascii) : ascii :=
  let n := nat_of_ascii c in
  if ((65 <=? n) && (n <=? 90))%nat then ascii_of_nat (n + 32) else c.

Fixpoint lstrip (cs : list ascii) : list ascii :=
  match cs with
  | c :: cs' => if is_space c then lstrip cs' else cs
  | [] => []
  end.

Definition strip (cs : list ascii) : list ascii := rev (lstrip (rev (lstrip cs))).

(** After a digit: more digits, each optionally preceded by one underscore.
    Returns the value read, the number of digits read and the rest. *)
Fixpoint digits_tail (acc : Z) (cnt : Z) (cs : list ascii) : Z * Z * list ascii :=
  match cs with
  | c :: cs' =>
      match digit_val c with
      | Some d => digits_tail (10 * acc + d) (cnt + 1) cs'
      | None =>
          if Ascii.eqb c "_" then
            match cs' with
            | c' :: cs'' =>
                match digit_val c' with
                | Some d => digits_tail (10 * acc + d) (cnt + 1) cs''
                | None => (acc, cnt, cs)
                end
            | [] => (acc, cnt, cs)
            end
          else (acc, cnt, cs)
      end
  | [] => (acc, cnt, cs)
  end.

(** [digitpart ::= digit (["_"] digit)*], continuing the value [acc]. *)
Definition digitpart (acc : Z) (cs : list ascii) : option (Z * Z * list ascii) :=
  match cs with
  | c :: cs' =>
      match digit_val c with
      | Some d => Some (digits_tail (10 * acc + d) 1 cs')
      | None => None
      end
  | [] => None
  end.

(** [number ::= [digitpart] "." digitpart | digitpart ["."]]: the digits as
    an integer and the number of those after the point. *)
Definition number (cs : list ascii) : option (Z * Z * list ascii) :=
  match digitpart 0 cs with
  | Some (ip, _, rest) =>
      match rest with
      | c :: rest' =>
          if Ascii.eqb c "." then
            match digitpart ip rest' with
            | Some (m, n, rest'') => Some (m, n, rest'')
            | None => Some (ip, 0, rest')
            end
          else Some (ip, 0, rest)
      | [] => Some (ip, 0, rest)
      end
  | None =>
      match cs with
      | c :: rest' => if Ascii.eqb c "." then digitpart 0 rest' else None
      | [] => None
      end
  end.

Definition sign (cs : list ascii) : bool * list ascii :=
  match cs with
  | c :: cs' =>
      if Ascii.eqb c "-" then (true, cs')
      else if Ascii.eqb c "+" then (false, cs')
      else (false, cs)
  | [] => (false, cs)
  end.

(** [exponent ::= ("e" | "E") [sign] digitpart]; without digits the letter
    is not part of the number. *)
Definition exponent (cs : list ascii) : Z * list ascii :=
  match cs with
  | c :: cs' =>
      if Ascii.eqb (lower c) "e" then
        let '(neg, cs'') := sign cs' in
        match digitpart 0 cs'' with
        | Some (x, _, rest) => ((if neg then - x else x), rest)
        | None => (0, cs)
        end
      else (0, cs)
  | [] => (0, cs)
  end.

(** [float(s)] on a [str]: surrounding whitespace is dropped, then
    [[sign] (floatnumber | "inf" | "infinity" | "nan")] must cover the whole
    text; anything else raises [ValueError]. *)
Definition float_of_str (s : string) : result float :=
  let '(neg, body) := sign (strip (list_ascii_of_string s)) in
  let word := string_of_list_ascii (map lower body) in
  if String.eqb word "inf" || String.eqb word "infinity" then
    Ok (if neg then neg_infinity else infinity)
  else if String.eqb word "nan" then Ok nan
  else
    match number body with
    | Some (m, n, rest) =>
        match exponent rest with
        | (x, []) =>
            Ok (match m with
                | Zpos p => float_of_decimal neg p (x - n)
                | _ => if neg then neg_zero else zero
                end)
        | (_, _ :: _) => Raised ValueError
        end
    | None => Raised ValueError
    end.

(** [float(v)] *)
Definition py_float (v : pyval) : result float :=
  match v with
  | PNone => Raised TypeError
  | PBool b => Ok (if b then 1%float else 0%float)
  | PInt n => float_of_int n
  | PFloat f => Ok f
  | PStr s => float_of_str s
  | PList _ => Raised TypeError
  | PDict _ => Raised TypeError
  end.

(** ** The format classifier *)

(** The fragment of regular expressions the classifier's pattern is written
    in: the anchor [^], a literal character, an optional literal ([c?]). *)
Inductive re_item : Type :=
| Bol
| Lit (c : ascii)
| Opt (c : ascii).

(** Does the pattern match a prefix of [cs], which starts at position [pos]
    of the subject?  [^] holds at position 0 only. *)
Fixpoint re_match_at (p : list re_item) (pos : nat) (cs : string) : bool :=
  match p with
  | [] => true
  | Bol :: p' => Nat.eqb pos 0 && re_match_at p' pos cs
  | Lit c :: p' =>
      match cs with
      | String c' cs' => Ascii.eqb c c' && re_match_at p' (S pos) cs'
      | EmptyString => false
      end
  | Opt c :: p' =>
      match cs with
      | String c' cs' => Ascii.eqb c c' && re_match_at p' (S pos) cs'
      | EmptyString => false
      end
      || re_match_at p' pos cs
  end.

(** [re.match(p, v)], as the truth value of what it returns: a match object
    or [None].  The subject must be a [str]. *)
Definition re_match (p : list re_item) (v : pyval) : result bool :=
  match v with
  | PStr s => Ok (re_match_at p 0 s)
  | _ => Raised TypeError
  end.

Definition lits (s : string) : list re_item := map Lit (list_ascii_of_string s).

(** [r"^https?://i\.redd\.it"] *)
Definition reddit_image_re : list re_item :=
  Bol :: lits "http" ++ Opt "s" :: lits "://i.redd.it".

(** [hit.get("_source", {}) or {}] *)
Definition safe_source (hit : dict) : pyval :=
  py_or (dict_get_default hit "_source" (PDict ∅)) (PDict ∅).

Definition detect_format (hit : dict) : result string :=
  let src := safe_source hit in
  let* is_video := py_get src "is_video" in
  if py_truthy is_video then Ok "video"
  else
    let* url := (let* u := py_get_default src "url" (PStr "") in Ok (py_or u (PStr ""))) in
    let* m := re_match reddit_image_re url in
    if m then Ok "image"
    else
      let* is_gallery := py_get src "is_gallery" in
      if py_truthy is_gallery then Ok "image" else Ok "text".

Definition accumulate_ids (ids_list : list pyval) (value : pyval) : list pyval :=
  match value with
  | PNone => ids_list
  | PList l => ids_list ++ l
  | _ => ids_list ++ [value]
  end.

(** ** The timestamp order *)

(** What [==] and [<] do on two timestamps.  The type of a timestamp is the
    timestamp extractor's own; [None] is kept apart as [option]'s [None]. *)
Class TimestampOps (T : Type) : Type := {
  ts_eqb : T -> T -> bool;
  ts_ltb : T -> T -> bool
}.

(** Mutually comparable timestamps: [==] is an equivalence and [<] a strict
    total order up to it. *)
Class TimestampOrder (T : Type) `{TimestampOps T} : Prop := {
  ts_eqb_refl : forall x, ts_eqb x x = true;
  ts_eqb_sym : forall x y, ts_eqb x y = true -> ts_eqb y x = true;
  ts_eqb_trans : forall x y z, ts_eqb x y = true -> ts_eqb y z = true -> ts_eqb x z = true;
  ts_ltb_trans : forall x y z, ts_ltb x y = true -> ts_ltb y z = true -> ts_ltb x z = true;
  ts_ltb_not_eqb : forall x y, ts_ltb x y = true -> ts_eqb x y = false;
  ts_ltb_asym : forall x y, ts_ltb x y = true -> ts_ltb y x = false;
  ts_total : forall x y, ts_ltb x y = false -> ts_ltb y x = false -> ts_eqb x y = true
}.

(** ** [list.sort(key=...)] *)

(** [list.sort] is a stable comparison sort that asks only [<] of two keys;
    a comparison that raises ends the sort.  It is modelled by the stable
    insertion sort: an element goes before the first one that is not
    smaller than it. *)
Section ListSort.
Context {A K : Type}.
Variable lt : K -> K -> result bool.
Variable key : A -> K.

Fixpoint sort_insert (x : A) (l : list A) : result (list A) :=
  match l with
  | [] => Ok [x]
  | y :: l' =>
      let* b := lt (key y) (key x) in
      if b then let* r := sort_insert x l' in Ok (y :: r)
      else Ok (x :: l)
  end.

Fixpoint list_sort (l : list A) : result (list A) :=
  match l with
  | [] => Ok []
  | x :: l' => let* r := list_sort l' in sort_insert x r
  end.
End ListSort.

(** ** The aggregation loop and the summary of [main] *)

(** The dictionary [main_format]. *)
Record format_counts : Type := {
  video : Z;
  image : Z;
  text : Z
}.

(** The dictionary [data] that is written to [comms.json]; [None] in the
    two dates is Python's [None]. *)
Module data.
Record t {Timestamp : Type} : Type := {
  type : string;
  key_ids : list pyval;
  start_date : option (pyval * option Timestamp);
  last_date : option (pyval * option Timestamp);
  platform : string;
  main_format : format_counts;
  landing_pages : list pyval;
  impressions_total : float;
  impressions_detail : list (pyval * pyval);
  doc_count_processed : Z
}.
Arguments t : clear implicits.
End data.

Section Main.
Context {Timestamp : Type} `{TimestampOps Timestamp}.

(** The extractors of the local module [utils]; each may raise. *)
Variable ut_timestamp : dict -> result (option Timestamp).
Variable ut_landing_pages : dict -> result pyval.
Variable ut_key_ids : dict -> result pyval.
Variable ut_impressions : dict -> result pyval.

(** The local variables of [main] the loop updates; a two-element list
    [[a, b]] is a pair. *)
Record locals : Type := {
  timestamp_list : list (pyval * option Timestamp);
  format_list : list (pyval * string);
  landing_pages : list (pyval * pyval);
  landing_pages2 : list pyval;
  ids : list pyval;
  impressions : list (pyval * pyval);
  v_ct : Z;
  i_ct : Z;
  t_ct : Z;
  imp_ct : float;
  doc_count : Z
}.

Definition init : locals := {|
  timestamp_list := [];
  format_list := [];
  landing_pages := [];
  landing_pages2 := [];
  ids := [];
  impressions := [];
  v_ct := 0;
  i_ct := 0;
  t_ct := 0;
  imp_ct := 0%float;
  doc_count := 0
|}.

(** Lines 120-126: the landing pages of one hit. *)
Definition add_landing_pages (doc_id filtered_urls : pyval)
    (lp : list (pyval * pyval) * list pyval) : list (pyval * pyval) * list pyval :=
  if py_truthy filtered_urls then
    (lp.1 ++ [(doc_id, filtered_urls)],
     match filtered_urls with
     | PList l => lp.2 ++ l
     | _ => lp.2 ++ [filtered_urls]
     end)
  else lp.

(** Lines 152-157: the aggregate of the impressions. *)
Definition add_impression (imp_ct : float) (imp_val : pyval) : float :=
  match imp_val with
  | PNone => imp_ct
  | _ =>
      match py_float imp_val with
      | Ok x => (imp_ct + x)%float
      | Raised _ => if py_truthy imp_val then (imp_ct + 1)%float else imp_ct
      end
  end.

(** The body of [for hit in docs]. *)
Definition loop_body (st : locals) (hit : dict) : result locals :=
  let doc_count := doc_count st + 1 in
  let doc_id := dict_get hit "_id" in
  let ts := try_except (ut_timestamp hit) None in
  let timestamp_list := timestamp_list st ++ [(doc_id, ts)] in
  let* fmt := detect_format hit in
  let format_list := format_list st ++ [(doc_id, fmt)] in
  let '(v_ct, i_ct, t_ct) :=
    if String.eqb fmt "video" then (v_ct st + 1, i_ct st, t_ct st)
    else if String.eqb fmt "image" then (v_ct st, i_ct st + 1, t_ct st)
    else (v_ct st, i_ct st, t_ct st + 1) in
  let filtered_urls := try_except (ut_landing_pages hit) PNone in
  let '(landing_pages, landing_pages2) :=
    add_landing_pages doc_id filtered_urls (landing_pages st, landing_pages2 st) in
  let key_ids_value := try_except (ut_key_ids hit) PNone in
  let ids := accumulate_ids (ids st) key_ids_value in
  let imp_val := try_except (ut_impressions hit) PNone in
  let impressions := impressions st ++ [(doc_id, imp_val)] in
  let imp_ct := add_impression (imp_ct st) imp_val in
  Ok {|
    timestamp_list := timestamp_list;
    format_list := format_list;
    landing_pages := landing_pages;
    landing_pages2 := landing_pages2;
    ids := ids;
    impressions := impressions;
    v_ct := v_ct;
    i_ct := i_ct;
    t_ct := t_ct;
    imp_ct := imp_ct;
    doc_count := doc_count
  |}.

(** The loop over the hits the scan yields, from the locals [st]. *)
Fixpoint loop (docs : list dict) (st : locals) : result locals :=
  match docs with
  | [] => Ok st
  | hit :: docs' => let* st' := loop_body st hit in loop docs' st'
  end.

(** The values the body works with for one hit: [doc_id], [ts],
    [filtered_urls], [key_ids_value] and [imp_val]. *)
Definition doc_id_of (hit : dict) : pyval := dict_get hit "_id".
Definition ts_of (hit : dict) : option Timestamp := try_except (ut_timestamp hit) None.
Definition urls_of (hit : dict) : pyval := try_except (ut_landing_pages hit) PNone.
Definition key_ids_of (hit : dict) : pyval := try_except (ut_key_ids hit) PNone.
Definition imp_of (hit : dict) : pyval := try_except (ut_impressions hit) PNone.

(** [x == y] and [x < y] on a timestamp or [None]; [None] has no [<]. *)
Definition py_eq (x y : option Timestamp) : bool :=
  match x, y with
  | None, None => true
  | Some a, Some b => ts_eqb a b
  | _, _ => false
  end.

Definition py_lt (x y : option Timestamp) : result bool :=
  match x, y with
  | Some a, Some b => Ok (ts_ltb a b)
  | _, _ => Raised TypeError
  end.

(** [<] on two-element tuples of a [bool] and a timestamp or [None]: the
    first components that are not [==] decide, by [<]. *)
Definition tuple_lt (k1 k2 : bool * option Timestamp) : result bool :=
  if negb (Bool.eqb k1.1 k2.1) then Ok (negb k1.1 && k2.1)
  else if negb (py_eq k1.2 k2.2) then py_lt k1.2 k2.2
  else Ok false.

Definition is_None (x : option Timestamp) : bool :=
  match x with None => true | Some _ => false end.

(** [lambda x: (x[1] is None, x[1])] *)
Definition sort_key (x : pyval * option Timestamp) : bool * option Timestamp :=
  (is_None x.2, x.2).

(** Lines 164-170; the result [None] is Python's [None]. *)
Definition start_last (timestamp_list : list (pyval * option Timestamp))
    : option (pyval * option Timestamp) * option (pyval * option Timestamp) :=
  match timestamp_list with
  | _ :: _ =>
      let non_none := List.filter (fun t => negb (is_None t.2)) timestamp_list in
      (head timestamp_list,
       match non_none with
       | _ :: _ => last non_none
       | [] => last timestamp_list
       end)
  | [] => (None, None)
  end.

(** Lines 159-193 of [main]: the sort, the date range and [data], with the
    sorted [timestamp_list]. *)
Definition reduce (st : locals)
    : result (list (pyval * option Timestamp) * data.t Timestamp) :=
  let* sorted := list_sort tuple_lt sort_key (timestamp_list st) in
  let '(start_date, last_date) := start_last sorted in
  Ok (sorted,
      {| data.type := "communications";
         data.key_ids := ids st;
         data.start_date := start_date;
         data.last_date := last_date;
         data.platform := "Reddit";
         data.main_format := {| video := v_ct st; image := i_ct st; text := t_ct st |};
         data.landing_pages := landing_pages2 st;
         data.impressions_total := imp_ct st;
         data.impressions_detail := impressions st;
         data.doc_count_processed := doc_count st |}).

(** [main], from the hits of the scan to [data]. *)
Definition main (docs : list dict) : result (data.t Timestamp) :=
  let* st := loop docs init in
  let* r := reduce st in
  Ok r.2.
End Main.

(** * Part II: what the properties speak about *)

(** ** The classifier *)

(** The three categories. *)
Definition is_category (c : string) : Prop := c = "video" \/ c = "image" \/ c = "text".

(** The pattern in the spec's words: the URL starts with [http://] or
    [https://] followed by [i.redd.it]. *)
Definition url_is_image (url : string) : bool :=
  String.prefix "http://i.redd.it" url || String.prefix "https://i.redd.it" url.

(** The URL field holds a text that starts as an image-hosting URL. *)
Definition url_field_is_image (v : pyval) : bool :=
  match v with
  | PStr s => url_is_image s
  | _ => false
  end.

(** The reading of the [url] field the classifier can work with: a [str],
    or a falsy value, which [or ""] replaces by the empty text. *)
Definition url_text (v : pyval) : option string :=
  match v with
  | PStr s => Some s
  | _ => if py_truthy v then None else Some ""
  end.

(** The hits on which the classifier can be run: the payload is missing or
    falsy, or it is a mapping that signals a video or whose [url] is a text
    or falsy. *)
Definition classifiable (hit : dict) : bool :=
  match hit !! "_source" with
  | None => true
  | Some (PDict src) =>
      py_truthy (dict_get src "is_video") || bool_decide (is_Some (url_text (dict_get src "url")))
  | Some v => negb (py_truthy v)
  end.

(** The claim that the classifier never raises, as the spec states it. *)
Definition classifier_total_as_specified : Prop :=
  forall hit : dict, exists c, detect_format hit = Ok c /\ is_category c.

(** The precedence of the classifier, as the spec states it for every
    payload that is a mapping. *)
Definition precedence_as_specified : Prop :=
  forall hit src : dict,
    hit !! "_source" = Some (PDict src) ->
    if py_truthy (dict_get src "is_video") then detect_format hit = Ok "video"
    else if url_field_is_image (dict_get src "url") || py_truthy (dict_get src "is_gallery")
         then detect_format hit = Ok "image"
         else detect_format hit = Ok "text".

(** ** The sort *)

(** The list the sort returns when the comparison [ltb] cannot raise. *)
Section PureSort.
Context {A : Type}.
Variable ltb : A -> A -> bool.

Fixpoint insert_before (x : A) (l : list A) : list A :=
  match l with
  | [] => [x]
  | y :: l' => if ltb y x then y :: insert_before x l' else x :: l
  end.

Fixpoint insertion_sort (l : list A) : list A :=
  match l with
  | [] => []
  | x :: l' => insert_before x (insertion_sort l')
  end.

(** Neither element is smaller than the other. *)
Definition tied (a b : A) : bool := negb (ltb a b) && negb (ltb b a).

(** No later element is smaller than an earlier one. *)
Definition ascending (l : list A) : Prop :=
  StronglySorted (fun a b => ltb b a = false) l.
End PureSort.

(** What [tuple_lt] answers on the keys of two entries of
    [timestamp_list]. *)
Definition entry_ltb {Timestamp : Type} `{TimestampOps Timestamp}
    (a b : pyval * option Timestamp) : bool :=
  match a.2, b.2 with
  | Some x, Some y => if negb (ts_eqb x y) then ts_ltb x y else false
  | Some _, None => true
  | None, _ => false
  end.

(** ** The accumulators *)

(** The three counters after a hit of format [fmt]. *)
Definition count_format (fmt : string) (c : Z * Z * Z) : Z * Z * Z :=
  if String.eqb fmt "video" then (c.1.1 + 1, c.1.2, c.2)
  else if String.eqb fmt "image" then (c.1.1, c.1.2 + 1, c.2)
  else (c.1.1, c.1.2, c.2 + 1).

(** The landing-pages extractor returned a truthy value for the hit. *)
Definition bears_landing_pages (ut_landing_pages : dict -> result pyval) (hit : dict) : bool :=
  match ut_landing_pages hit with
  | Ok v => py_truthy v
  | Raised _ => false
  end.

(** A value of the shape the landing-pages extractor promises: [None], a
    text or a list. *)
Definition url_shaped (v : pyval) : Prop :=
  match v with
  | PNone | PStr _ | PList _ => True
  | _ => False
  end.

(** Non-empty in the spec's words: not null, not the empty text, not the
    empty sequence. *)
Definition non_empty (v : pyval) : Prop :=
  v <> PNone /\ v <> PStr "" /\ v <> PList [].

(** The landing-page items one value stands for: the items of a list, one
    for any other value. *)
Definition item_count (v : pyval) : nat :=
  match v with
  | PList l => length l
  | _ => 1
  end.

(** What one extracted impressions value adds to the aggregate, if
    anything: its number when it has one; 1 when it has none and is truthy;
    nothing when it is [None], or has none and is falsy. *)
Definition contribution (v : pyval) : option float :=
  match v with
  | PNone => None
  | _ =>
      match py_float v with
      | Ok x => Some x
      | Raised _ => if py_truthy v then Some 1%float else None
      end
  end.

(** The spec's reading of the same: 1 for every value other than [None]
    that has no number, 0 for [None]. *)
Definition contribution_as_specified (v : pyval) : float :=
  match v with
  | PNone => 0%float
  | _ =>
      match py_float v with
      | Ok x => x
      | Raised _ => 1%float
      end
  end.

(** The sum of a list of floats, from left to right. *)
Definition float_sum (xs : list float) : float := fold_left PrimFloat.add xs 0%float.

(** The claim of the spec about the aggregate: it is the sum of
    [contribution_as_specified] over the extracted values. *)
Definition impressions_total_as_specified : Prop :=
  forall (ut_impressions : dict -> result pyval) (docs : list dict) (st : @locals Z),
    loop (fun _ => Ok None) (fun _ => Ok PNone) (fun _ => Ok PNone) ut_impressions docs init
      = Ok st ->
    imp_ct st =
      float_sum (map (fun hit => contribution_as_specified
                                   (try_except (ut_impressions hit) PNone)) docs).

(** An extractor that returns the default where the given one raises. *)
Definition caught {A : Type} (f : dict -> result A) (dflt : A) (hit : dict) : result A :=
  Ok (try_except (f hit) dflt).

(** ** Sample data *)

(** Timestamps that are integers. *)
#[export] Instance Z_timestamp_ops : TimestampOps Z := {| ts_eqb := Z.eqb; ts_ltb := Z.ltb |}.

(** Extractors for the samples, in place of those of [utils]: each reads
    one field of the payload; a timestamp is an [int]. *)
Definition field (name : string) (hit : dict) : result pyval :=
  py_get (safe_source hit) name.

Definition sample_timestamp (hit : dict) : result (option Z) :=
  let* v := field "timestamp" hit in
  match v with
  | PNone => Ok None
  | PInt n => Ok (Some n)
  | _ => Raised ValueError
  end.

Definition sample_loop : list dict -> locals -> result locals :=
  loop sample_timestamp (field "landing_pages") (field "key_ids") (field "impressions").

Definition sample_main : list dict -> result (data.t Z) :=
  main sample_timestamp (field "landing_pages") (field "key_ids") (field "impressions").

(** Four hits: a video with two landing pages, an image with one, a hit
    without payload, and a text post whose timestamp extractor raises. *)
Definition doc1 : dict :=
  {[ "_id" := PStr "1";
     "_source" := PDict {[ "is_video" := PBool true;
                           "timestamp" := PInt 100;
                           "impressions" := PInt 10;
                           "key_ids" := PList [PStr "k1"; PStr "k2"];
                           "landing_pages" := PList [PStr "https://a.example"; PStr "https://b.example"] ]} ]}.

Definition doc2 : dict :=
  {[ "_id" := PStr "2";
     "_source" := PDict {[ "url" := PStr "https://i.redd.it/x";
                           "timestamp" := PInt 50;
                           "impressions" := PStr "bad";
                           "key_ids" := PStr "k3";
                           "landing_pages" := PStr "https://c.example" ]} ]}.

Definition doc3 : dict := {[ "_id" := PStr "3" ]}.

Definition doc4 : dict :=
  {[ "_id" := PStr "4";
     "_source" := PDict {[ "timestamp" := PStr "soon";
                           "impressions" := PInt 5;
                           "landing_pages" := PList [] ]} ]}.

Definition sample_docs : list dict := [doc1; doc2; doc3; doc4].

Definition sample_entries : list (pyval * option Z) :=
  [(PStr "1", Some 100); (PStr "2", Some 50); (PStr "3", None); (PStr "4", Some 50)].

(** [{"_id": "5", "_source": {"impressions": ""}}] *)
Definition doc_blank_impressions : dict :=
  {[ "_id" := PStr "5"; "_source" := PDict {[ "impressions" := PStr "" ]} ]}.

(** [{"_id": "7", "_source": {"url": ["https://i.redd.it/x"]}}]: the [url]
    field holds an array. *)
Definition hit_url_array : dict :=
  {[ "_id" := PStr "7";
     "_source" := PDict {[ "url" := PList [PStr "https://i.redd.it/x"] ]} ]}.

(** [{"_id": "8", "_source": {"url": 123, "is_gallery": True}}] *)
Definition payload_url_number : dict := {[ "url" := PInt 123; "is_gallery" := PBool true ]}.

Definition hit_url_number : dict :=
  {[ "_id" := PStr "8"; "_source" := PDict payload_url_number ]}.

(** [{"_id": "2", "_source": {"url": "https://i.redd.it/abc"}}] *)
Definition payload_image : dict := {[ "url" := PStr "https://i.redd.it/abc" ]}.

Definition hit_image : dict := {[ "_id" := PStr "2"; "_source" := PDict payload_image ]}.

(** ** The flat lists and the counts *)

(** The items a landing-pages value puts on the flat list: those of a
    list, the value itself otherwise. *)
Definition spread (v : pyval) : list pyval :=
  match v with
  | PList l => l
  | _ => [v]
  end.

(** The items a key-ids value puts on [ids]: none for [None], those of a
    list, the value itself otherwise. *)
Definition ids_items (v : pyval) : list pyval :=
  match v with
  | PNone => []
  | PList l => l
  | _ => [v]
  end.

(** A key id that is neither [None] nor a list. *)
Definition is_scalar_id (v : pyval) : bool :=
  match v with
  | PNone | PList _ => false
  | _ => true
  end.

(** The number of entries of a format list with the category [c]. *)
Definition count_category (c : string) (fl : list (pyval * string)) : Z :=
  Z.of_nat (length (List.filter (fun e => String.eqb e.2 c) fl)).

(** The hit is classified: the classifier returns for it. *)
Definition classified (hit : dict) : Prop := exists fmt, detect_format hit = Ok fmt.

(** ** More sample data *)

(** [{"_id": "6", "_source": {"impressions": "nan"}}] *)
Definition doc_nan_impressions : dict :=
  {[ "_id" := PStr "6"; "_source" := PDict {[ "impressions" := PStr "nan" ]} ]}.

(** The payload of [hit_image] with a title besides. *)
Definition payload_image_titled : dict :=
  {[ "url" := PStr "https://i.redd.it/abc"; "title" := PStr "a cat" ]}.

Definition hit_image_titled : dict :=
  {[ "_id" := PStr "9"; "_source" := PDict payload_image_titled ]}.

(** ** One hit recorded *)



(** ** Sample data for the failures and the ties *)


(** [{"_id": "11", "_source": "deleted"}]: the payload is a text. *)
Definition hit_source_text : dict := {[ "_id" := PStr "11"; "_source" := PStr "deleted" ]}.

(** Two hits with the timestamps of [doc2] and [doc1] under ids of their
    own. *)
Definition doc_early : dict :=
  {[ "_id" := PStr "12"; "_source" := PDict {[ "timestamp" := PInt 50 ]} ]}.

Definition doc_late : dict :=
  {[ "_id" := PStr "13"; "_source" := PDict {[ "timestamp" := PInt 100 ]} ]}.

(** * Part III: the properties *)

(** ** The pattern of the classifier *)

Lemma prefix_cons (a b : ascii) (s1 s2 : string) :
  String.prefix (String a s1) (String b s2) = Ascii.eqb a b && String.prefix s1 s2.
Proof.
  cbn [String.prefix]. destruct (ascii_dec a b) as [->|Hne].
  - now rewrite Ascii.eqb_refl.
  - apply Ascii.eqb_neq in Hne. now rewrite Hne.
Qed.

Lemma re_match_lits (s : string) (p : list re_item) (pos : nat) (cs : string) :
  re_match_at (lits s ++ p) pos cs = true <->
  exists rest, cs = (s ++ rest)%string /\ re_match_at p (pos + String.length s) rest = true.
Proof.
  revert pos cs. induction s as [|c s IH]; intros pos cs; cbn.
  - rewrite Nat.add_0_r. split; [eauto | now intros (rest & -> & Hm)].
  - destruct cs as [|c' cs].
    + split; [discriminate | now intros (rest & Heq & _)].
    + change (map Lit (list_ascii_of_string s) ++ p) with (lits s ++ p).
      rewrite andb_true_iff, IH, Ascii.eqb_eq, <- Nat.add_succ_comm.
      split.
      * intros (-> & rest & -> & Hm). eauto.
      * intros (rest & [= -> ->] & Hm). eauto.
Qed.

Lemma prefix_app (s1 s2 cs : string) :
  String.prefix (s1 ++ s2) cs = true <->
  exists rest, cs = (s1 ++ rest)%string /\ String.prefix s2 rest = true.
Proof.
  revert cs. induction s1 as [|c s1 IH]; intros cs.
  - cbn [String.append]. split; [eauto | now intros (rest & -> & Hm)].
  - destruct cs as [|c' cs].
    + split; [discriminate | now intros (rest & Heq & _)].
    + change (String c s1 ++ s2)%string with (String c (s1 ++ s2)).
      rewrite prefix_cons, andb_true_iff, IH, Ascii.eqb_eq.
      split.
      * intros (-> & rest & -> & Hm). eauto.
      * intros (rest & [= -> ->] & Hm). eauto.
Qed.

Lemma re_match_lits_prefix (s : string) (pos : nat) (cs : string) :
  re_match_at (lits s) pos cs = String.prefix s cs.
Proof.
  revert pos cs. induction s as [|c s IH]; intros pos cs; [now destruct cs|].
  destruct cs as [|c' cs]; [reflexivity|].
  rewrite prefix_cons. cbn. now rewrite <- (IH (S pos)).
Qed.

(** The pattern [^https?://i\.redd\.it] matches exactly the URLs the spec's
    words describe. *)
Lemma re_match_reddit_image (url : string) :
  re_match_at reddit_image_re 0 url = url_is_image url.
Proof.
  apply eq_true_iff_eq. unfold reddit_image_re, url_is_image.
  cbn [re_match_at Nat.eqb andb].
  rewrite re_match_lits, orb_true_iff.
  change "http://i.redd.it" with ("http" ++ "://i.redd.it")%string.
  change "https://i.redd.it" with ("http" ++ "s://i.redd.it")%string.
  rewrite !prefix_app. split.
  - intros (rest & -> & Hm). cbn [re_match_at] in Hm.
    apply orb_true_iff in Hm as [Hm|Hm].
    + right. exists rest. split; [reflexivity|].
      destruct rest as [|c rest]; [discriminate|].
      apply andb_true_iff in Hm as [Hc Hm]. apply Ascii.eqb_eq in Hc as <-.
      change (re_match_at (lits "://i.redd.it") (S (0 + String.length "http")) rest = true) in Hm.
      rewrite re_match_lits_prefix in Hm.
      now rewrite prefix_cons, Ascii.eqb_refl.
    + left. exists rest. split; [reflexivity|].
      change (re_match_at (lits "://i.redd.it") (0 + String.length "http") rest = true) in Hm.
      now rewrite re_match_lits_prefix in Hm.
  - intros [(rest & -> & Hm)|(rest & -> & Hm)]; exists rest; (split; [reflexivity|]);
      cbn [re_match_at]; apply orb_true_iff.
    + right.
      change (re_match_at (lits "://i.redd.it") (0 + String.length "http") rest = true).
      now rewrite re_match_lits_prefix.
    + left. destruct rest as [|c rest]; [discriminate|].
      rewrite prefix_cons in Hm. apply andb_true_iff in Hm as [Hc Hm].
      rewrite Hc. cbn [andb].
      change (re_match_at (lits "://i.redd.it") (S (0 + String.length "http")) rest = true).
      now rewrite re_match_lits_prefix.
Qed.

(** ** The format classifier *)

Lemma py_truthy_empty_dict : py_truthy (PDict ∅) = false.
Proof. reflexivity. Qed.

Lemma py_truthy_dict_false (d : dict) : py_truthy (PDict d) = false -> d = ∅.
Proof.
  cbn. intros Hd. apply negb_false_iff in Hd. now apply bool_decide_eq_true in Hd.
Qed.

(** A payload that is a mapping is what [safe_source] returns. *)
Lemma safe_source_dict (hit src : dict) :
  hit !! "_source" = Some (PDict src) -> safe_source hit = PDict src.
Proof.
  intros Hsrc. unfold safe_source, dict_get_default, py_or. rewrite Hsrc. cbn [from_option id].
  destruct (py_truthy (PDict src)) eqn:Ht; [reflexivity|].
  now rewrite (py_truthy_dict_false _ Ht).
Qed.

(** A missing or falsy payload is replaced by the empty mapping. *)
Lemma safe_source_falsy (hit : dict) :
  (forall v, hit !! "_source" = Some v -> py_truthy v = false) ->
  safe_source hit = PDict ∅.
Proof.
  intros Hf. unfold safe_source, dict_get_default, py_or.
  destruct (hit !! "_source") as [v|] eqn:Hv; cbn [from_option id].
  - now rewrite (Hf v eq_refl).
  - reflexivity.
Qed.

Lemma url_text_or (v : pyval) (s : string) :
  url_text v = Some s -> py_or v (PStr "") = PStr s.
Proof.
  unfold url_text, py_or.
  destruct v; try (destruct (py_truthy _); [discriminate | now intros [= <-]]).
  intros [= ->]. now destruct (py_truthy (PStr s)) eqn:Hs; [|destruct s].
Qed.

Lemma url_text_none (v : pyval) :
  url_text v = None -> re_match reddit_image_re (py_or v (PStr "")) = Raised TypeError.
Proof.
  unfold url_text, py_or.
  destruct v; try discriminate; destruct (py_truthy _) eqn:Ht; try discriminate; reflexivity.
Qed.

(** What the classifier does on a payload [src] that is a mapping, case by
    case: the three results and the one way it raises. *)
Lemma detect_format_dict (hit src : dict) :
  hit !! "_source" = Some (PDict src) ->
  detect_format hit =
    if py_truthy (dict_get src "is_video") then Ok "video"
    else
      match url_text (dict_get_default src "url" (PStr "")) with
      | Some url =>
          if url_is_image url || py_truthy (dict_get src "is_gallery")
          then Ok "image" else Ok "text"
      | None => Raised TypeError
      end.
Proof.
  intros Hsrc. unfold detect_format. rewrite (safe_source_dict _ _ Hsrc). cbn [py_get bind].
  destruct (py_truthy (dict_get src "is_video")); [reflexivity|].
  cbn [py_get_default bind].
  destruct (url_text (dict_get_default src "url" (PStr ""))) as [url|] eqn:Hu.
  - rewrite (url_text_or _ _ Hu). cbn [re_match bind]. rewrite re_match_reddit_image.
    destruct (url_is_image url); [reflexivity|]. cbn [orb].
    now destruct (py_truthy (dict_get src "is_gallery")).
  - now rewrite (url_text_none _ Hu).
Qed.

Lemma dict_get_default_url (src : dict) :
  url_text (dict_get_default src "url" (PStr "")) = url_text (dict_get src "url").
Proof. unfold dict_get_default, dict_get. now destruct (src !! "url"). Qed.

(** The classifier on the empty mapping. *)
Lemma detect_format_empty (hit : dict) :
  safe_source hit = PDict ∅ -> detect_format hit = Ok "text".
Proof. intros Hs. unfold detect_format. now rewrite Hs. Qed.

Lemma detect_format_url_array : detect_format hit_url_array = Raised TypeError.
Proof. vm_compute. reflexivity. Qed.

Lemma detect_format_url_number : detect_format hit_url_number = Raised TypeError.
Proof. vm_compute. reflexivity. Qed.

(** A truthy payload that is not a mapping has no [get]. *)
Lemma detect_format_not_dict (hit : dict) (v : pyval) :
  hit !! "_source" = Some v -> py_truthy v = true -> (forall d, v <> PDict d) ->
  detect_format hit = Raised AttributeError.
Proof.
  intros Hv Ht Hd. unfold detect_format, safe_source, dict_get_default, py_or.
  rewrite Hv. cbn [from_option id]. rewrite Ht.
  destruct v; try reflexivity. now destruct (Hd d).
Qed.

(** On a classifiable hit the classifier returns one of the categories. *)
Lemma detect_format_classifiable (hit : dict) :
  classifiable hit = true -> exists c, detect_format hit = Ok c /\ is_category c.
Proof.
  unfold classifiable. intros Hc. destruct (hit !! "_source") as [v|] eqn:Hv.
  - destruct v;
      try (exists "text"; split; [|unfold is_category; tauto];
           apply detect_format_empty, safe_source_falsy;
           intros v' Hv'; rewrite Hv in Hv'; injection Hv' as <-;
           now apply negb_true_iff in Hc).
    rewrite (detect_format_dict _ _ Hv), dict_get_default_url.
    destruct (py_truthy (dict_get d "is_video")).
    + exists "video". unfold is_category. tauto.
    + cbn [orb] in Hc. apply bool_decide_eq_true in Hc as [url Hu]. rewrite Hu.
      destruct (url_is_image url || py_truthy (dict_get d "is_gallery"));
        [exists "image" | exists "text"]; unfold is_category; tauto.
  - exists "text". split; [|unfold is_category; tauto].
    apply detect_format_empty, safe_source_falsy. intros v Hv'. congruence.
Qed.

(** The classifier raises on exactly the hits that are not classifiable. *)
Lemma detect_format_raises (hit : dict) :
  classifiable hit = false -> exists e, detect_format hit = Raised e.
Proof.
  unfold classifiable. destruct (hit !! "_source") as [v|] eqn:Hv; [|discriminate].
  destruct v; intros Hc; try apply negb_false_iff in Hc;
    try (exists AttributeError; now apply (detect_format_not_dict _ _ Hv)).
  apply orb_false_iff in Hc as [Hvideo Hurl]. apply bool_decide_eq_false in Hurl.
  exists TypeError. rewrite (detect_format_dict _ _ Hv), dict_get_default_url, Hvideo.
  destruct (url_text (dict_get d "url")); [|reflexivity]. now destruct Hurl.
Qed.

(** The precedence on a payload (a mapping) whose [url] is a text or
    falsy: a truthy [is_video] gives [video], whatever the URL and the
    gallery flag are; otherwise a URL that starts with [http://] or
    [https://] followed by [i.redd.it], or a truthy gallery flag, gives
    [image], and anything else gives [text]. *)
Lemma detect_format_precedence (hit src : dict) (url : string) :
  hit !! "_source" = Some (PDict src) ->
  (py_truthy (dict_get src "is_video") = true -> detect_format hit = Ok "video") /\
  (py_truthy (dict_get src "is_video") = false ->
   url_text (dict_get src "url") = Some url ->
   (url_is_image url = true \/ py_truthy (dict_get src "is_gallery") = true ->
    detect_format hit = Ok "image") /\
   (url_is_image url = false -> py_truthy (dict_get src "is_gallery") = false ->
    detect_format hit = Ok "text")).
Proof.
  intros Hsrc. rewrite (detect_format_dict _ _ Hsrc), dict_get_default_url. split.
  - now intros ->.
  - intros -> ->. split.
    + intros [-> | ->]; [reflexivity | now rewrite orb_true_r].
    + now intros -> ->.
Qed.

(** ** The stable sort *)

Section StableSort.
Context {A : Type}.
Variable ltb : A -> A -> bool.

(** With a comparison that does not raise, [list_sort] returns what
    [insertion_sort] computes. *)
Lemma list_sort_pure {K : Type} (lt : K -> K -> result bool) (key : A -> K) :
  (forall a b, lt (key a) (key b) = Ok (ltb a b)) ->
  forall l, list_sort lt key l = Ok (insertion_sort ltb l).
Proof.
  intros Hlt.
  assert (forall x l, sort_insert lt key x l = Ok (insert_before ltb x l)) as Hins.
  { intros x l. induction l as [|y l IH]; [reflexivity|].
    cbn. rewrite Hlt. cbn. destruct (ltb y x); [now rewrite IH | reflexivity]. }
  induction l as [|x l IH]; [reflexivity|].
  cbn. rewrite IH. cbn. apply Hins.
Qed.

Lemma insert_before_perm (x : A) (l : list A) :
  Permutation (insert_before ltb x l) (x :: l).
Proof.
  induction l as [|y l IH]; [reflexivity|].
  cbn. destruct (ltb y x); [|reflexivity].
  rewrite IH. apply perm_swap.
Qed.

Lemma insertion_sort_perm (l : list A) : Permutation (insertion_sort ltb l) l.
Proof.
  induction l as [|x l IH]; [reflexivity|].
  cbn. rewrite insert_before_perm. now constructor.
Qed.

(** A list that is already in order is left as it is. *)
Lemma insertion_sort_ascending (l : list A) :
  ascending ltb l -> insertion_sort ltb l = l.
Proof.
  induction 1 as [|x l Hl IH Hx]; [reflexivity|].
  cbn. rewrite IH. destruct l as [|y l]; [reflexivity|].
  cbn. now rewrite (Forall_inv Hx).
Qed.

Lemma ascending_lookup (l : list A) (i j : nat) (a b : A) :
  ascending ltb l -> (i < j)%nat -> l !! i = Some a -> l !! j = Some b -> ltb b a = false.
Proof.
  intros Hl. revert i j. induction Hl as [|x l Hl IH Hx]; intros i j Hij Hi Hj.
  - discriminate.
  - destruct j as [|j]; [lia|]. cbn in Hj. destruct i as [|i].
    + injection Hi as <-. rewrite Forall_forall in Hx.
      apply Hx. now apply list_elem_of_lookup_2 in Hj.
    + apply (IH i j); [lia | exact Hi | exact Hj].
Qed.

Lemma ascending_head (x y : A) (l : list A) :
  ascending ltb (x :: l) -> In y l -> ltb y x = false.
Proof.
  intros Hl Hy. apply StronglySorted_inv in Hl as [_ Hx].
  rewrite Forall_forall in Hx. apply Hx. now apply list_elem_of_In.
Qed.

Lemma tied_sym (a b : A) : tied ltb a b = tied ltb b a.
Proof. unfold tied. apply andb_comm. Qed.

Lemma filter_tied_In (a y : A) (l l' : list A) :
  List.filter (tied ltb a) l = y :: l' -> In y l.
Proof.
  intros Hf. apply (filter_In (tied ltb a) y l). rewrite Hf. now left.
Qed.

(** From here on [ltb] is a strict weak order. *)
Hypothesis ltb_irrefl : forall a, ltb a a = false.
Hypothesis ltb_trans : forall a b c, ltb a b = true -> ltb b c = true -> ltb a c = true.
Hypothesis ltb_neg_trans :
  forall a b c, ltb a b = false -> ltb b c = false -> ltb a c = false.

Lemma ltb_asym (a b : A) : ltb a b = true -> ltb b a = false.
Proof.
  intros Hab. destruct (ltb b a) eqn:Hba; [|reflexivity].
  now rewrite <- (ltb_irrefl a), (ltb_trans a b a).
Qed.

Lemma tied_refl (a : A) : tied ltb a a = true.
Proof. unfold tied. now rewrite ltb_irrefl. Qed.

Lemma insert_before_ascending (x : A) (l : list A) :
  ascending ltb l -> ascending ltb (insert_before ltb x l).
Proof.
  induction 1 as [|y l Hl IH Hy]; cbn.
  - repeat constructor.
  - destruct (ltb y x) eqn:Hyx.
    + constructor; [exact IH|].
      rewrite insert_before_perm. constructor; [now apply ltb_asym | exact Hy].
    + constructor; [now constructor|].
      constructor; [exact Hyx|].
      eapply Forall_impl; [exact Hy|]. intros z Hz. cbn in Hz.
      now apply (ltb_neg_trans z y x).
Qed.

Lemma insertion_sort_is_ascending (l : list A) : ascending ltb (insertion_sort ltb l).
Proof.
  induction l as [|x l IH]; [constructor|]. now apply insert_before_ascending.
Qed.

Lemma insertion_sort_idempotent (l : list A) :
  insertion_sort ltb (insertion_sort ltb l) = insertion_sort ltb l.
Proof. apply insertion_sort_ascending, insertion_sort_is_ascending. Qed.

(** Stability: the elements tied with [a] come out in the order they went
    in. *)
Lemma insert_before_stable (a x : A) (l : list A) :
  List.filter (tied ltb a) (insert_before ltb x l) = List.filter (tied ltb a) (x :: l).
Proof.
  induction l as [|y l IH]; [reflexivity|].
  cbn [insert_before]. destruct (ltb y x) eqn:Hyx; [|reflexivity].
  cbn [List.filter] in *. rewrite IH.
  destruct (tied ltb a x) eqn:Hax, (tied ltb a y) eqn:Hay; try reflexivity.
  exfalso. unfold tied in Hax, Hay.
  apply andb_true_iff in Hax as [Hax Hxa], Hay as [Hay Hya].
  apply negb_true_iff in Hax, Hxa, Hay, Hya.
  now rewrite (ltb_neg_trans y a x) in Hyx.
Qed.

Lemma insertion_sort_stable (a : A) (l : list A) :
  List.filter (tied ltb a) (insertion_sort ltb l) = List.filter (tied ltb a) l.
Proof.
  induction l as [|x l IH]; [reflexivity|].
  cbn [insertion_sort]. rewrite insert_before_stable. cbn [List.filter]. now rewrite IH.
Qed.

(** Two lists in order with the same elements in each class of ties, in the
    same order, are the same list. *)
Lemma stable_sort_unique (s s' : list A) :
  ascending ltb s -> ascending ltb s' ->
  (forall a, List.filter (tied ltb a) s = List.filter (tied ltb a) s') ->
  s = s'.
Proof.
  intros Hs. revert s'. induction Hs as [|x s1 Hs1 IH Hx]; intros s' Hs' Hf.
  - destruct s' as [|y s1']; [reflexivity|].
    specialize (Hf y). cbn in Hf. now rewrite tied_refl in Hf.
  - assert (ascending ltb (x :: s1)) as Hxs by now constructor.
    destruct s' as [|y s1'].
    + specialize (Hf x). cbn in Hf. now rewrite tied_refl in Hf.
    + assert (y = x) as ->.
      { pose proof (Hf x) as Hfx. cbn in Hfx. rewrite tied_refl in Hfx.
        destruct (tied ltb x y) eqn:Hxy; [congruence|]. exfalso.
        symmetry in Hfx. apply filter_tied_In in Hfx.
        pose proof (ascending_head _ _ _ Hs' Hfx) as Hlt1.
        pose proof (Hf y) as Hfy. cbn in Hfy.
        rewrite tied_refl, (tied_sym y x), Hxy in Hfy.
        apply filter_tied_In in Hfy.
        pose proof (ascending_head _ _ _ Hxs Hfy) as Hlt2.
        unfold tied in Hxy. now rewrite Hlt1, Hlt2 in Hxy. }
      f_equal. apply IH; [now apply StronglySorted_inv in Hs'|].
      intros a. specialize (Hf a). cbn in Hf. destruct (tied ltb a x); congruence.
Qed.

(** So every stable sort returns what [insertion_sort] returns. *)
Lemma stable_sort_is_insertion_sort (l s : list A) :
  ascending ltb s ->
  (forall a, List.filter (tied ltb a) s = List.filter (tied ltb a) l) ->
  s = insertion_sort ltb l.
Proof.
  intros Hs Hf. apply stable_sort_unique; [exact Hs | apply insertion_sort_is_ascending|].
  intros a. now rewrite insertion_sort_stable.
Qed.
End StableSort.

(** ** The sort of [timestamp_list] *)

#[export] Instance Z_timestamp_order : TimestampOrder Z.
Proof.
  split; cbn; intros.
  - apply Z.eqb_refl.
  - now rewrite Z.eqb_sym.
  - apply Z.eqb_eq in H, H0. apply Z.eqb_eq. congruence.
  - apply Z.ltb_lt in H, H0. apply Z.ltb_lt. lia.
  - apply Z.ltb_lt in H. apply Z.eqb_neq. lia.
  - apply Z.ltb_lt in H. apply Z.ltb_ge. lia.
  - apply Z.ltb_ge in H, H0. apply Z.eqb_eq. lia.
Qed.

Section TimestampSort.
Context {Timestamp : Type} `{TimestampOps Timestamp}.

(** The comparison of two keys never reaches [<] on [None]. *)
Lemma tuple_lt_sort_key (a b : pyval * option Timestamp) :
  tuple_lt (sort_key a) (sort_key b) = Ok (entry_ltb a b).
Proof.
  destruct a as [ida [x|]], b as [idb [y|]]; unfold tuple_lt, entry_ltb; cbn;
    try reflexivity.
  now destruct (ts_eqb x y).
Qed.

(** The sort of [timestamp_list] always returns. *)
Lemma timestamp_sort_returns (l : list (pyval * option Timestamp)) :
  list_sort tuple_lt sort_key l = Ok (insertion_sort entry_ltb l).
Proof. apply list_sort_pure, tuple_lt_sort_key. Qed.

Context `{!TimestampOrder Timestamp}.

Lemma entry_ltb_some (ida idb : pyval) (x y : Timestamp) :
  entry_ltb (ida, Some x) (idb, Some y) = ts_ltb x y.
Proof.
  unfold entry_ltb. cbn. destruct (ts_ltb x y) eqn:Hlt.
  - now rewrite (ts_ltb_not_eqb _ _ Hlt).
  - now destruct (ts_eqb x y).
Qed.

Lemma ts_ltb_irrefl (x : Timestamp) : ts_ltb x x = false.
Proof.
  destruct (ts_ltb x x) eqn:Hlt; [|reflexivity].
  apply ts_ltb_not_eqb in Hlt. now rewrite ts_eqb_refl in Hlt.
Qed.

Lemma ts_ltb_neg_trans (x y z : Timestamp) :
  ts_ltb x y = false -> ts_ltb y z = false -> ts_ltb x z = false.
Proof.
  intros Hxy Hyz. destruct (ts_ltb x z) eqn:Hxz; [|reflexivity]. exfalso.
  destruct (ts_ltb y x) eqn:Hyx.
  - now rewrite (ts_ltb_trans y x z) in Hyz.
  - destruct (ts_ltb z y) eqn:Hzy.
    + now rewrite (ts_ltb_trans x z y) in Hxy.
    + pose proof (ts_total x y Hxy Hyx) as Exy.
      pose proof (ts_total y z Hyz Hzy) as Eyz.
      pose proof (ts_ltb_not_eqb x z Hxz) as Nxz.
      now rewrite (ts_eqb_trans x y z) in Nxz.
Qed.

Lemma entry_ltb_irrefl (a : pyval * option Timestamp) : entry_ltb a a = false.
Proof. destruct a as [ida [x|]]; [|reflexivity]. rewrite entry_ltb_some. apply ts_ltb_irrefl. Qed.

Lemma entry_ltb_trans (a b c : pyval * option Timestamp) :
  entry_ltb a b = true -> entry_ltb b c = true -> entry_ltb a c = true.
Proof.
  destruct a as [ida [x|]], b as [idb [y|]], c as [idc [z|]];
    rewrite ?entry_ltb_some; try reflexivity; try discriminate.
  apply ts_ltb_trans.
Qed.

Lemma entry_ltb_neg_trans (a b c : pyval * option Timestamp) :
  entry_ltb a b = false -> entry_ltb b c = false -> entry_ltb a c = false.
Proof.
  destruct a as [ida [x|]], b as [idb [y|]], c as [idc [z|]];
    rewrite ?entry_ltb_some; try reflexivity; try discriminate.
  apply ts_ltb_neg_trans.
Qed.

(** Two entries are tied in the sort exactly when their timestamps are
    [==], two [None] included. *)
Lemma tied_py_eq (a b : pyval * option Timestamp) :
  tied entry_ltb a b = py_eq a.2 b.2.
Proof.
  unfold tied. destruct a as [ida [x|]], b as [idb [y|]];
    rewrite ?entry_ltb_some; try reflexivity. cbn [snd py_eq].
  destruct (ts_ltb x y) eqn:Hxy; cbn.
  - symmetry. now apply ts_ltb_not_eqb.
  - destruct (ts_ltb y x) eqn:Hyx; cbn.
    + symmetry. destruct (ts_eqb x y) eqn:Exy; [|reflexivity].
      apply ts_eqb_sym in Exy. now rewrite (ts_ltb_not_eqb _ _ Hyx) in Exy.
    + symmetry. now apply ts_total.
Qed.

(** C5: the sort of [timestamp_list] returns a rearrangement of the list in
    which every entry with a [None] timestamp comes after every entry with a
    timestamp, the timestamps of the others ascend, and the entries whose
    timestamps are equal to a given one (or are all [None]) keep the order
    they had before the sort. *)
Theorem timestamp_sort_spec (l : list (pyval * option Timestamp)) :
  exists s,
    list_sort tuple_lt sort_key l = Ok s /\
    Permutation s l /\
    (forall i j a b, s !! i = Some a -> s !! j = Some b ->
       a.2 = None -> b.2 <> None -> (j < i)%nat) /\
    (forall i j a b x y, (i < j)%nat -> s !! i = Some a -> s !! j = Some b ->
       a.2 = Some x -> b.2 = Some y -> ts_ltb y x = false) /\
    (forall t, List.filter (fun e => py_eq t e.2) s = List.filter (fun e => py_eq t e.2) l).
Proof.
  exists (insertion_sort entry_ltb l).
  pose proof (insertion_sort_is_ascending entry_ltb entry_ltb_irrefl entry_ltb_trans
                entry_ltb_neg_trans l) as Hasc.
  split; [apply timestamp_sort_returns|].
  split; [apply insertion_sort_perm|].
  split; [|split].
  - intros i j [ida ta] [idb tb] Hi Hj Ha Hb. cbn in Ha, Hb. subst ta.
    destruct tb as [y|]; [clear Hb|congruence].
    destruct (Nat.lt_trichotomy j i) as [Hlt|[->|Hgt]]; [exact Hlt| |].
    + rewrite Hi in Hj. discriminate.
    + pose proof (ascending_lookup _ _ _ _ _ _ Hasc Hgt Hi Hj) as Hcmp. discriminate.
  - intros i j [ida ta] [idb tb] x y Hij Hi Hj Ha Hb. cbn in Ha, Hb. subst ta tb.
    pose proof (ascending_lookup _ _ _ _ _ _ Hasc Hij Hi Hj) as Hcmp.
    now rewrite entry_ltb_some in Hcmp.
  - intros t.
    pose proof (insertion_sort_stable entry_ltb entry_ltb_neg_trans (PNone, t) l) as Hst.
    rewrite <- (filter_ext (tied entry_ltb (PNone, t)) (fun e => py_eq t e.2)
                  (fun e => tied_py_eq (PNone, t) e) l).
    rewrite <- Hst. symmetry. apply filter_ext. intros e. apply tied_py_eq.
Qed.

(** The sort is the one stable sort: a list in the order of the keys, with
    the entries of equal timestamps in the order they had in [l], is the
    list the sort returns. *)
Lemma timestamp_sort_unique (l s : list (pyval * option Timestamp)) :
  ascending entry_ltb s ->
  (forall t, List.filter (fun e => py_eq t e.2) s = List.filter (fun e => py_eq t e.2) l) ->
  list_sort tuple_lt sort_key l = Ok s.
Proof.
  intros Hs Hf. rewrite timestamp_sort_returns. f_equal. symmetry.
  apply stable_sort_is_insertion_sort;
    [apply entry_ltb_irrefl | apply entry_ltb_trans | apply entry_ltb_neg_trans | exact Hs |].
  intros a.
  rewrite (filter_ext _ _ (tied_py_eq a) s), (filter_ext _ _ (tied_py_eq a) l). apply Hf.
Qed.

(** C6: sorting the sorted [timestamp_list] again, by the same key, returns
    the same list. *)
Theorem timestamp_sort_idempotent (l : list (pyval * option Timestamp)) :
  exists s,
    list_sort tuple_lt sort_key l = Ok s /\ list_sort tuple_lt sort_key s = Ok s.
Proof.
  exists (insertion_sort entry_ltb l). split; [apply timestamp_sort_returns|].
  rewrite timestamp_sort_returns. f_equal.
  apply insertion_sort_idempotent; [apply entry_ltb_irrefl | apply entry_ltb_trans
                                   | apply entry_ltb_neg_trans].
Qed.
End TimestampSort.

(** ** The aggregation loop *)

Lemma list_sum_cons (n : nat) (l : list nat) : list_sum (n :: l) = (n + list_sum l)%nat.
Proof. reflexivity. Qed.

Lemma accumulate_ids_items (ids_list : list pyval) (v : pyval) :
  accumulate_ids ids_list v = ids_list ++ ids_items v.
Proof. destruct v; cbn; now rewrite ?app_nil_r. Qed.



Section LoopProperties.
Context {Timestamp : Type}.
Variable ut_timestamp : dict -> result (option Timestamp).
Variable ut_landing_pages : dict -> result pyval.
Variable ut_key_ids : dict -> result pyval.
Variable ut_impressions : dict -> result pyval.

(** The body and the loop of [main] with these extractors. *)
#[local] Abbreviation body :=
  (loop_body ut_timestamp ut_landing_pages ut_key_ids ut_impressions).
#[local] Abbreviation run :=
  (loop ut_timestamp ut_landing_pages ut_key_ids ut_impressions).

#[local] Abbreviation ts_at := (ts_of ut_timestamp).
#[local] Abbreviation urls_at := (urls_of ut_landing_pages).
#[local] Abbreviation key_ids_at := (key_ids_of ut_key_ids).
#[local] Abbreviation imp_at := (imp_of ut_impressions).
#[local] Abbreviation bears := (bears_landing_pages ut_landing_pages).

(** One pass of the body: it returns exactly when the classifier does, and
    then every local is the old one updated from this hit alone. *)
Lemma loop_body_ok (st : locals) (hit : dict) (fmt : string) :
  detect_format hit = Ok fmt ->
  exists st',
    body st hit = Ok st' /\
    doc_count st' = doc_count st + 1 /\
    timestamp_list st' = timestamp_list st ++ [(doc_id_of hit, ts_at hit)] /\
    format_list st' = format_list st ++ [(doc_id_of hit, fmt)] /\
    (v_ct st', i_ct st', t_ct st') = count_format fmt (v_ct st, i_ct st, t_ct st) /\
    (landing_pages st', landing_pages2 st') =
      add_landing_pages (doc_id_of hit) (urls_at hit) (landing_pages st, landing_pages2 st) /\
    ids st' = accumulate_ids (ids st) (key_ids_at hit) /\
    impressions st' = impressions st ++ [(doc_id_of hit, imp_at hit)] /\
    imp_ct st' = add_impression (imp_ct st) (imp_at hit).
Proof.
  intros Hfmt. unfold loop_body. rewrite Hfmt. cbn [bind].
  unfold count_format. cbn [fst snd].
  destruct (add_landing_pages _ _ _) as [lp lp2] eqn:Hlp.
  destruct (String.eqb fmt "video"); [|destruct (String.eqb fmt "image")];
    (eexists; split; [reflexivity|]; cbn; rewrite ?Hlp; repeat split; reflexivity).
Qed.

Lemma loop_body_raises (st : locals) (hit : dict) (e : exn) :
  detect_format hit = Raised e -> body st hit = Raised e.
Proof. intros Hfmt. unfold loop_body. now rewrite Hfmt. Qed.

Lemma loop_body_inv (st st' : locals) (hit : dict) :
  body st hit = Ok st' -> exists fmt, detect_format hit = Ok fmt.
Proof.
  destruct (detect_format hit) as [fmt|e] eqn:Hfmt; [eauto|].
  now rewrite (loop_body_raises _ _ _ Hfmt).
Qed.

Lemma loop_cons (hit : dict) (docs : list dict) (st : locals) :
  run (hit :: docs) st = let* st' := body st hit in run docs st'.
Proof. reflexivity. Qed.

Lemma loop_app (docs1 docs2 : list dict) (st : locals) :
  run (docs1 ++ docs2) st = let* st' := run docs1 st in run docs2 st'.
Proof.
  revert st. induction docs1 as [|hit docs1 IH]; intros st; [reflexivity|].
  cbn. destruct (body st hit); [apply IH | reflexivity].
Qed.

(** The loop returns when the classifier returns on every hit, whatever the
    extractors do. *)
Lemma loop_returns (docs : list dict) (st : locals) :
  Forall (fun hit => exists fmt, detect_format hit = Ok fmt) docs ->
  exists st', run docs st = Ok st'.
Proof.
  intros Hdocs. revert st. induction Hdocs as [|hit docs [fmt Hfmt] _ IH]; intros st.
  - now exists st.
  - destruct (loop_body_ok st hit fmt Hfmt) as (st1 & Hst1 & _).
    cbn. rewrite Hst1. apply IH.
Qed.

(** What the loop has accumulated when it returns, for each local, from the
    locals it started with. *)
Lemma loop_ok (docs : list dict) (st st' : locals) :
  run docs st = Ok st' ->
  doc_count st' = doc_count st + Z.of_nat (length docs) /\
  v_ct st' + i_ct st' + t_ct st' = v_ct st + i_ct st + t_ct st + Z.of_nat (length docs) /\
  timestamp_list st' = timestamp_list st ++ map (fun hit => (doc_id_of hit, ts_at hit)) docs /\
  map fst (format_list st') = map fst (format_list st) ++ map doc_id_of docs /\
  landing_pages st' =
    landing_pages st ++
    map (fun hit => (doc_id_of hit, urls_at hit))
        (List.filter (fun hit => py_truthy (urls_at hit)) docs) /\
  length (landing_pages2 st') =
    (length (landing_pages2 st) +
     list_sum (map (fun hit => item_count (urls_at hit))
                   (List.filter (fun hit => py_truthy (urls_at hit)) docs)))%nat /\
  ids st' = fold_left accumulate_ids (map key_ids_at docs) (ids st) /\
  impressions st' = impressions st ++ map (fun hit => (doc_id_of hit, imp_at hit)) docs /\
  imp_ct st' = fold_left add_impression (map imp_at docs) (imp_ct st).
Proof.
  revert st. induction docs as [|hit docs IH]; intros st Hloop.
  - injection Hloop as <-. cbn. rewrite !app_nil_r. repeat split; lia.
  - rewrite loop_cons in Hloop.
    destruct (body st hit) as [st1|e] eqn:Hst1; [|discriminate]. cbn [bind] in Hloop.
    destruct (loop_body_inv _ _ _ Hst1) as [fmt Hfmt].
    destruct (loop_body_ok st hit fmt Hfmt)
      as (st1' & Hst1' & Hdc & Hts & Hfl & Hct & Hlp & Hids & Himp & Hic).
    rewrite Hst1 in Hst1'. injection Hst1' as <-.
    destruct (IH st1 Hloop) as (Hdc' & Hct' & Hts' & Hfl' & Hlp' & Hlp2' & Hids' & Himp' & Hic').
    assert (v_ct st1 + i_ct st1 + t_ct st1 = v_ct st + i_ct st + t_ct st + 1) as Hsum.
    { unfold count_format in Hct. cbn [fst snd] in Hct.
      destruct (String.eqb fmt "video"); [|destruct (String.eqb fmt "image")];
        injection Hct as -> -> ->; lia. }
    unfold add_landing_pages in Hlp. cbn [fst snd] in Hlp.
    cbn [length map List.filter fold_left].
    rewrite Hdc', Hct', Hts', Hfl', Hlp', Hlp2', Hids', Himp', Hic'.
    rewrite Hdc, Hsum, Hts, Hfl, Hids, Himp, Hic, map_app, <- !app_assoc. cbn [map fst app].
    repeat split; try lia.
    + destruct (py_truthy (urls_at hit)); injection Hlp as -> _;
        [now rewrite <- app_assoc | reflexivity].
    + destruct (py_truthy (urls_at hit)) eqn:Hurls; injection Hlp as _ ->; [|reflexivity].
      cbn [map]. rewrite list_sum_cons.
      destruct (urls_at hit); cbn [item_count]; rewrite length_app; cbn [length]; lia.
Qed.

Lemma bears_landing_pages_urls (hit : dict) :
  py_truthy (urls_at hit) = bears hit.
Proof. unfold urls_of, bears_landing_pages. now destruct (ut_landing_pages hit). Qed.

Lemma add_impression_contribution (acc : float) (v : pyval) :
  add_impression acc v =
    match contribution v with
    | Some x => (acc + x)%float
    | None => acc
    end.
Proof.
  unfold add_impression, contribution.
  destruct v; try reflexivity;
    destruct (py_float _); try reflexivity; now destruct (py_truthy _).
Qed.

Lemma fold_add_impression (vals : list pyval) (acc : float) :
  fold_left add_impression vals acc = fold_left PrimFloat.add (omap contribution vals) acc.
Proof.
  revert acc. induction vals as [|v vals IH]; intros acc; [reflexivity|].
  cbn [fold_left omap list_omap]. rewrite IH, add_impression_contribution.
  now destruct (contribution v).
Qed.

(** C1, amended: the impressions aggregate is the sum, in stream order, of
    what the extracted values contribute: the number of a value that has
    one; 1 for a value that has none and is truthy; nothing for [None] and
    for a value that has none and is falsy.  The values 10, "bad", None, 5
    give 16. *)
Theorem impressions_total_spec (docs : list dict) (st : locals) :
  run docs init = Ok st ->
  imp_ct st = float_sum (omap contribution (map imp_at docs)) /\
  imp_ct st = float_sum (omap contribution (map snd (impressions st))) /\
  (map imp_at docs = [PInt 10; PStr "bad"; PNone; PInt 5] -> imp_ct st = 16%float).
Proof.
  intros Hloop.
  destruct (loop_ok docs init st Hloop) as (_ & _ & _ & _ & _ & _ & _ & Himp & Hic).
  cbn [init impressions imp_ct app] in Himp, Hic.
  rewrite fold_add_impression in Hic. split; [exact Hic|]. split.
  - rewrite Himp, map_map. cbn [snd]. exact Hic.
  - intros Hvals. rewrite Hic, Hvals. reflexivity.
Qed.

(** C4: when the loop has exhausted the source, the three format counts add
    up to the number of documents processed, which is the number of hits and
    the length of the format, timestamp and impression lists; and each hit
    adds one to the count and one entry to each list. *)
Theorem aggregation_counts (docs : list dict) (st : locals) :
  run docs init = Ok st ->
  (v_ct st + i_ct st + t_ct st = doc_count st /\
   doc_count st = Z.of_nat (length docs) /\
   doc_count st = Z.of_nat (length (format_list st)) /\
   doc_count st = Z.of_nat (length (timestamp_list st)) /\
   doc_count st = Z.of_nat (length (impressions st))) /\
  (forall st0 hit st1, body st0 hit = Ok st1 ->
     v_ct st1 + i_ct st1 + t_ct st1 = v_ct st0 + i_ct st0 + t_ct st0 + 1 /\
     doc_count st1 = doc_count st0 + 1 /\
     length (format_list st1) = S (length (format_list st0)) /\
     length (timestamp_list st1) = S (length (timestamp_list st0)) /\
     length (impressions st1) = S (length (impressions st0))).
Proof.
  intros Hloop. split.
  - destruct (loop_ok docs init st Hloop) as (Hdc & Hct & Hts & Hfl & _ & _ & _ & Himp & _).
    cbn [init doc_count v_ct i_ct t_ct timestamp_list format_list impressions app map] in *.
    apply (f_equal (@length _)) in Hfl. rewrite !length_map in Hfl.
    rewrite Hts, Himp, Hfl, !length_map. lia.
  - intros st0 hit st1 Hbody.
    assert (run [hit] st0 = Ok st1) as Hone by (rewrite loop_cons, Hbody; reflexivity).
    destruct (loop_ok [hit] st0 st1 Hone) as (Hdc & Hct & Hts & Hfl & _ & _ & _ & Himp & _).
    apply (f_equal (@length _)) in Hfl. rewrite length_app, !length_map in Hfl.
    rewrite Hts, Himp, !length_app. cbn [length map] in *. lia.
Qed.

(** On a value of the shape the extractor promises, truthy is non-empty in
    the spec's words. *)
Lemma py_truthy_non_empty (v : pyval) :
  url_shaped v -> (py_truthy v = true <-> non_empty v).
Proof.
  unfold non_empty. destruct v as [| | | |s|l|]; cbn; try tauto; intros _.
  - split; [discriminate | intros (Hn & _); now destruct Hn].
  - destruct s; cbn; split; try discriminate; try easy; intros (_ & Hs & _); now destruct Hs.
  - destruct l; split; try discriminate; try easy; intros (_ & _ & Hl); now destruct Hl.
Qed.

(** C9: the landing-page entries are those of the hits for which the
    extractor returned a truthy (non-empty) value, in stream order, so there
    are at most as many as documents processed; and the flat list has one
    item for each such value that is not a list and as many as its items for
    each that is a list. *)
Theorem landing_pages_spec (docs : list dict) (st : locals) :
  run docs init = Ok st ->
  landing_pages st =
    map (fun hit => (doc_id_of hit, urls_at hit)) (List.filter bears docs) /\
  Z.of_nat (length (landing_pages st)) <= doc_count st /\
  length (landing_pages2 st) = list_sum (map (fun e => item_count e.2) (landing_pages st)).
Proof.
  intros Hloop.
  destruct (loop_ok docs init st Hloop) as (Hdc & _ & _ & _ & Hlp & Hlp2 & _).
  cbn [init doc_count landing_pages landing_pages2 app length Nat.add] in *.
  rewrite (filter_ext _ _ bears_landing_pages_urls) in Hlp, Hlp2.
  rewrite Hlp, Hlp2, Hdc, length_map, map_map. cbn [snd].
  repeat split. pose proof (filter_length_le bears docs). lia.
Qed.

(** The run with the extractors is the run with extractors that never
    raise and return [None] where the given ones do. *)
Lemma loop_caught (docs : list dict) (st : locals) :
  run docs st =
  loop (caught ut_timestamp None) (caught ut_landing_pages PNone)
       (caught ut_key_ids PNone) (caught ut_impressions PNone) docs st.
Proof. reflexivity. Qed.

(** The loop raises exactly when the classifier raises on a hit that only
    classified hits precede, and with its exception. *)
Lemma loop_raises_iff (docs : list dict) (st : locals) (e : exn) :
  run docs st = Raised e <->
  exists pre hit post,
    docs = pre ++ hit :: post /\ Forall classified pre /\ detect_format hit = Raised e.
Proof.
  revert st. induction docs as [|hit docs IH]; intros st.
  - split; [discriminate | intros (pre & h & post & Heq & _); now destruct pre].
  - rewrite loop_cons. destruct (detect_format hit) as [fmt|e'] eqn:Hfmt.
    + destruct (loop_body_ok st hit fmt Hfmt) as (st1 & -> & _).
      cbn [bind]. rewrite IH. split.
      * intros (pre & h & post & -> & Hpre & Hh). exists (hit :: pre), h, post.
        repeat split; [|exact Hh]. constructor; [now exists fmt | exact Hpre].
      * intros (pre & h & post & Heq & Hpre & Hh). destruct pre as [|p pre].
        -- injection Heq as <- _. congruence.
        -- injection Heq as <- ->. apply Forall_cons in Hpre as [_ Hpre].
           exists pre, h, post. now repeat split.
    + rewrite (loop_body_raises _ _ _ Hfmt). cbn [bind]. split.
      * intros [= <-]. exists [], hit, docs. repeat split; [constructor | exact Hfmt].
      * intros (pre & h & post & Heq & Hpre & Hh). destruct pre as [|p pre].
        -- injection Heq as <- _. congruence.
        -- injection Heq as <- _. apply Forall_cons in Hpre as [[fmt Hp] _]. congruence.
Qed.



(** C10: a hit whose [_source] is missing or falsy has the empty mapping
    for payload and is classified [text]; the body counts it as text. *)
Theorem falsy_source_is_text (hit : dict) :
  (forall v, hit !! "_source" = Some v -> py_truthy v = false) ->
  safe_source hit = PDict ∅ /\
  detect_format hit = Ok "text" /\
  forall st, exists st',
    body st hit = Ok st' /\
    format_list st' = format_list st ++ [(doc_id_of hit, "text")] /\
    t_ct st' = t_ct st + 1 /\ v_ct st' = v_ct st /\ i_ct st' = i_ct st.
Proof.
  intros Hf. pose proof (safe_source_falsy hit Hf) as Hsrc.
  pose proof (detect_format_empty hit Hsrc) as Hfmt.
  split; [exact Hsrc|]. split; [exact Hfmt|]. intros st.
  destruct (loop_body_ok st hit "text" Hfmt) as (st' & Hst' & _ & _ & Hfl & Hct & _).
  exists st'. injection Hct as -> -> ->. now repeat split.
Qed.
End LoopProperties.

(** ** The summary reducer *)

Section Reducer.
Context {Timestamp : Type} `{TimestampOps Timestamp}.

Lemma filter_all_none (l : list (pyval * option Timestamp)) :
  Forall (fun x => x.2 = None) l -> List.filter (fun t => negb (is_None t.2)) l = [].
Proof.
  induction 1 as [|x l Hx _ IH]; [reflexivity|].
  cbn. now rewrite Hx, IH.
Qed.

Lemma start_last_nil : start_last (@nil (pyval * option Timestamp)) = (None, None).
Proof. reflexivity. Qed.

Lemma start_last_first (e : pyval * option Timestamp) (rest : list (pyval * option Timestamp)) :
  (start_last (e :: rest)).1 = Some e.
Proof. reflexivity. Qed.

Lemma start_last_last_some (pre suf : list (pyval * option Timestamp))
    (e : pyval * option Timestamp) :
  e.2 <> None -> Forall (fun x => x.2 = None) suf ->
  (start_last (pre ++ e :: suf)).2 = Some e.
Proof.
  intros He Hsuf. unfold start_last.
  destruct (pre ++ e :: suf) as [|x l] eqn:Hl; [now destruct pre|].
  cbn [snd]. rewrite <- Hl, List.filter_app. cbn [List.filter].
  destruct (e.2) eqn:Hts; [|congruence]. cbn [is_None negb].
  rewrite (filter_all_none _ Hsuf).
  destruct (List.filter _ pre ++ [e]) as [|y l'] eqn:Hf; [now destruct (List.filter _ pre)|].
  rewrite <- Hf. apply last_snoc.
Qed.

Lemma start_last_last_none (pre : list (pyval * option Timestamp))
    (e : pyval * option Timestamp) :
  Forall (fun x => x.2 = None) (pre ++ [e]) ->
  (start_last (pre ++ [e])).2 = Some e.
Proof.
  intros Hall. unfold start_last.
  destruct (pre ++ [e]) as [|x l] eqn:Hl; [now destruct pre|].
  cbn [snd]. rewrite (filter_all_none _ Hall), <- Hl. apply last_snoc.
Qed.

(** The reducer returns: the sort does, and the two dates are read off the
    sorted list. *)
Lemma reduce_returns (st : locals) :
  exists sorted data,
    reduce st = Ok (sorted, data) /\
    list_sort tuple_lt sort_key (timestamp_list st) = Ok sorted /\
    data.start_date data = (start_last sorted).1 /\
    data.last_date data = (start_last sorted).2.
Proof.
  unfold reduce. rewrite timestamp_sort_returns. cbn [bind].
  exists (insertion_sort entry_ltb (timestamp_list st)).
  destruct (start_last (insertion_sort entry_ltb (timestamp_list st))) as [first final].
  eexists. split; [reflexivity|]. split; [reflexivity|]. split; reflexivity.
Qed.

(** C7: the reducer returns; [start_date] is the first entry of the sorted
    list and [last_date] is its last entry with a timestamp, which is its
    last entry when no entry has one; both are [None] when the list is
    empty. *)
Theorem date_range_spec (st : locals) :
  exists sorted data,
    reduce st = Ok (sorted, data) /\
    list_sort tuple_lt sort_key (timestamp_list st) = Ok sorted /\
    (sorted = [] -> data.start_date data = None /\ data.last_date data = None) /\
    (forall e rest, sorted = e :: rest -> data.start_date data = Some e) /\
    (forall pre e suf, sorted = pre ++ e :: suf ->
       e.2 <> None -> Forall (fun x => x.2 = None) suf -> data.last_date data = Some e) /\
    (forall pre e, sorted = pre ++ [e] ->
       Forall (fun x => x.2 = None) sorted -> data.last_date data = Some e).
Proof.
  destruct (reduce_returns st) as (sorted & data & Hred & Hsort & Hfirst & Hfinal).
  exists sorted, data. split; [exact Hred|]. split; [exact Hsort|].
  rewrite Hfirst, Hfinal. clear.
  split; [now intros ->|]. split; [|split].
  - intros e rest ->. apply start_last_first.
  - intros pre e suf ->. apply start_last_last_some.
  - intros pre e ->. apply start_last_last_none.
Qed.

(** [main] returns exactly when the loop does. *)
Lemma main_returns (ut_timestamp : dict -> result (option Timestamp))
    (ut_landing_pages ut_key_ids ut_impressions : dict -> result pyval)
    (docs : list dict) (st : locals) :
  loop ut_timestamp ut_landing_pages ut_key_ids ut_impressions docs init = Ok st ->
  exists sorted data,
    reduce st = Ok (sorted, data) /\
    main ut_timestamp ut_landing_pages ut_key_ids ut_impressions docs = Ok data.
Proof.
  intros Hloop. destruct (reduce_returns st) as (sorted & data & Hred & _).
  exists sorted, data. split; [exact Hred|].
  unfold main. rewrite Hloop. cbn [bind]. now rewrite Hred.
Qed.

(** The counts in [data]: the three formats add up to the documents
    processed, one per hit and per entry of the impressions detail. *)
Lemma main_counts (ut_timestamp : dict -> result (option Timestamp))
    (ut_landing_pages ut_key_ids ut_impressions : dict -> result pyval)
    (docs : list dict) (d : data.t Timestamp) :
  main ut_timestamp ut_landing_pages ut_key_ids ut_impressions docs = Ok d ->
  video (data.main_format d) + image (data.main_format d) + text (data.main_format d)
    = data.doc_count_processed d /\
  data.doc_count_processed d = Z.of_nat (length docs) /\
  length (data.impressions_detail d) = length docs.
Proof.
  unfold main. intros Hmain.
  destruct (loop ut_timestamp ut_landing_pages ut_key_ids ut_impressions docs init)
    as [st|e] eqn:Hloop; [|discriminate].
  cbn [bind] in Hmain. unfold reduce in Hmain.
  rewrite timestamp_sort_returns in Hmain. cbn [bind] in Hmain.
  destruct (start_last _) as [first final]. injection Hmain as <-.
  cbn [data.main_format data.doc_count_processed data.impressions_detail video image text].
  destruct (loop_ok _ _ _ _ docs init st Hloop) as (Hdc & Hct & _ & _ & _ & _ & _ & Himp & _).
  cbn [init doc_count v_ct i_ct t_ct impressions app] in Hdc, Hct, Himp.
  rewrite Himp, length_map. lia.
Qed.

(** No classifiable hit ends the run: [main] returns on a stream of them,
    whatever the extractors do. *)
Lemma main_total (ut_timestamp : dict -> result (option Timestamp))
    (ut_landing_pages ut_key_ids ut_impressions : dict -> result pyval)
    (docs : list dict) :
  Forall (fun hit => classifiable hit = true) docs ->
  exists data, main ut_timestamp ut_landing_pages ut_key_ids ut_impressions docs = Ok data.
Proof.
  intros Hdocs.
  destruct (loop_returns ut_timestamp ut_landing_pages ut_key_ids ut_impressions docs init)
    as [st Hst].
  { eapply Forall_impl; [exact Hdocs|]. intros hit Hhit.
    destruct (detect_format_classifiable hit Hhit) as (c & Hc & _). eauto. }
  destruct (main_returns _ _ _ _ docs st Hst) as (sorted & data & _ & Hmain). eauto.
Qed.
End Reducer.

(** ** The run on the sample data *)

Example sample_main_result :
  sample_main sample_docs =
  Ok {| data.type := "communications";
        data.key_ids := [PStr "k1"; PStr "k2"; PStr "k3"];
        data.start_date := Some (PStr "2", Some 50);
        data.last_date := Some (PStr "1", Some 100);
        data.platform := "Reddit";
        data.main_format := {| video := 1; image := 1; text := 2 |};
        data.landing_pages :=
          [PStr "https://a.example"; PStr "https://b.example"; PStr "https://c.example"];
        data.impressions_total := 16%float;
        data.impressions_detail :=
          [(PStr "1", PInt 10); (PStr "2", PStr "bad"); (PStr "3", PNone); (PStr "4", PInt 5)];
        data.doc_count_processed := 4 |}.
Proof. vm_compute. reflexivity. Qed.

Example sample_sorted :
  list_sort tuple_lt sort_key sample_entries =
  Ok [(PStr "2", Some 50); (PStr "4", Some 50); (PStr "1", Some 100); (PStr "3", None)].
Proof. reflexivity. Qed.

(** A hit the classifier raises on ends [main]. *)
Example sample_main_aborts : sample_main [doc1; hit_url_array; doc2] = Raised TypeError.
Proof. vm_compute. reflexivity. Qed.

Example float_blank : py_float (PStr "") = Raised ValueError /\ py_truthy (PStr "") = false.
Proof. split; reflexivity. Qed.

(** ** The classifier on payloads it has no guard for *)

(** C2: the classifier is not total.  On the hit
    [{"_id": "7", "_source": {"url": ["https://i.redd.it/x"]}}] it raises
    [TypeError] where the spec has it return [text], and on
    [{"_id": "11", "_source": "deleted"}] it raises [AttributeError].  The
    call is outside every [try]: a stream that holds the first of these
    hits after hits the classifier returns for ends [main] with the
    [TypeError], whatever the extractors are. *)
Theorem classifier_raises_on_malformed_payload :
  detect_format hit_url_array = Raised TypeError /\
  detect_format hit_source_text = Raised AttributeError /\
  (forall (Timestamp : Type) (ops : TimestampOps Timestamp)
          (ut_timestamp : dict -> result (option Timestamp))
          (ut_landing_pages ut_key_ids ut_impressions : dict -> result pyval)
          (pre post : list dict),
     Forall classified pre ->
     main ut_timestamp ut_landing_pages ut_key_ids ut_impressions
          (pre ++ hit_url_array :: post) = Raised TypeError) /\
  sample_main [doc1; hit_url_array; doc2] = Raised TypeError /\
  ~ classifier_total_as_specified.
Proof.
  split; [vm_compute; reflexivity|]. split; [vm_compute; reflexivity|].
  split; [|split; [vm_compute; reflexivity|]].
  - intros Timestamp ops ut_timestamp ut_landing_pages ut_key_ids ut_impressions pre post Hpre.
    unfold main.
    assert (loop ut_timestamp ut_landing_pages ut_key_ids ut_impressions
              (pre ++ hit_url_array :: post) init = Raised TypeError) as ->; [|reflexivity].
    apply loop_raises_iff. exists pre, hit_url_array, post.
    split; [reflexivity|]. split; [exact Hpre | vm_compute; reflexivity].
  - intros Htotal. destruct (Htotal hit_url_array) as (c & Hc & _).
    rewrite detect_format_url_array in Hc. discriminate.
Qed.

(** C3: the precedence does not hold for every payload.  The payload of
    [{"_id": "8", "_source": {"url": 123, "is_gallery": True}}] signals no
    video and its gallery flag is set, so the spec has the classifier return
    [image]; it raises [TypeError] in [re.match], before the gallery flag
    is read. *)
Theorem gallery_flag_not_reached :
  hit_url_number !! "_source" = Some (PDict payload_url_number) /\
  py_truthy (dict_get payload_url_number "is_video") = false /\
  py_truthy (dict_get payload_url_number "is_gallery") = true /\
  detect_format hit_url_number = Raised TypeError /\
  ~ precedence_as_specified.
Proof.
  split; [reflexivity|]. split; [reflexivity|]. split; [reflexivity|].
  split; [exact detect_format_url_number|].
  intros Hp. specialize (Hp hit_url_number payload_url_number eq_refl).
  vm_compute in Hp. discriminate.
Qed.

(** ** The impressions aggregate as the spec states it *)

Lemma float_zero_not_one : 0%float <> 1%float.
Proof.
  intros Heq. apply (f_equal (fun x => PrimFloat.eqb x 0%float)) in Heq.
  vm_compute in Heq. discriminate.
Qed.

(** C1, as stated, fails: the empty text has no number, and it adds nothing
    to the aggregate, not 1. *)
Lemma impressions_blank_adds_nothing : ~ impressions_total_as_specified.
Proof.
  intros Hclaim.
  specialize (Hclaim (field "impressions") [doc_blank_impressions]).
  vm_compute in Hclaim. specialize (Hclaim _ eq_refl).
  now apply float_zero_not_one.
Qed.

(** ** The theorems at the sample run *)

Example sample_timestamp_raises : sample_timestamp doc4 = Raised ValueError.
Proof. vm_compute. reflexivity. Qed.

Lemma impressions_total_spec_witness :
  exists st, sample_loop sample_docs init = Ok st /\ imp_ct st = 16%float.
Proof.
  eexists. split; [vm_compute; reflexivity|].
  refine (proj2 (proj2 (impressions_total_spec sample_timestamp (field "landing_pages")
                          (field "key_ids") (field "impressions") sample_docs _ _)) _);
    vm_compute; reflexivity.
Defined.

Lemma aggregation_counts_witness :
  exists st,
    sample_loop sample_docs init = Ok st /\
    v_ct st + i_ct st + t_ct st = doc_count st /\
    doc_count st = Z.of_nat (length sample_docs) /\
    doc_count st = Z.of_nat (length (format_list st)) /\
    doc_count st = Z.of_nat (length (timestamp_list st)) /\
    doc_count st = Z.of_nat (length (impressions st)).
Proof.
  eexists. split; [vm_compute; reflexivity|].
  refine (proj1 (aggregation_counts sample_timestamp (field "landing_pages")
                   (field "key_ids") (field "impressions") sample_docs _ _)).
  vm_compute. reflexivity.
Defined.

Lemma landing_pages_spec_witness :
  exists st,
    sample_loop sample_docs init = Ok st /\
    map fst (landing_pages st) = [PStr "1"; PStr "2"] /\
    length (landing_pages2 st) = 3%nat.
Proof.
  eexists. split; [vm_compute; reflexivity|].
  match goal with
  | |- context [landing_pages ?st] =>
      destruct (landing_pages_spec sample_timestamp (field "landing_pages")
                  (field "key_ids") (field "impressions") sample_docs st)
        as (Hentries & _ & Hflat); [vm_compute; reflexivity|]
  end.
  split; [rewrite Hentries | rewrite Hflat]; vm_compute; reflexivity.
Defined.

Lemma timestamp_sort_spec_witness :
  exists s,
    list_sort tuple_lt sort_key
      sample_entries
      = Ok s /\
    (forall i j a b, s !! i = Some a -> s !! j = Some b ->
       a.2 = None -> b.2 <> None -> (j < i)%nat).
Proof.
  destruct (timestamp_sort_spec (TimestampOrder0 := Z_timestamp_order) sample_entries)
    as (s & Hsort & _ & Hnone & _).
  exists s. split; [exact Hsort | exact Hnone].
Defined.

Lemma timestamp_sort_idempotent_witness :
  exists s,
    list_sort tuple_lt sort_key
      sample_entries
      = Ok s /\
    list_sort tuple_lt sort_key s = Ok s.
Proof.
  exact (timestamp_sort_idempotent (TimestampOrder0 := Z_timestamp_order)
           sample_entries).
Defined.


Lemma falsy_source_is_text_witness :
  safe_source doc3 = PDict ∅ /\ detect_format doc3 = Ok "text".
Proof.
  destruct (falsy_source_is_text sample_timestamp (field "landing_pages")
              (field "key_ids") (field "impressions") doc3) as (Hsrc & Hfmt & _).
  - intros v Hv. vm_compute in Hv. discriminate.
  - split; [exact Hsrc | exact Hfmt].
Defined.

(** * Part IV: further properties of the classifier, the loop and the reducer *)

(** ** The classifier *)

Lemma prefix_rest (p s : string) :
  String.prefix p s = true <-> exists rest, s = (p ++ rest)%string.
Proof.
  revert s. induction p as [|c p IH]; intros s.
  - split; [intros _; now exists s | now destruct s].
  - destruct s as [|c' s].
    + split; [discriminate | now intros (rest & Heq)].
    + rewrite prefix_cons, andb_true_iff, IH, Ascii.eqb_eq. split.
      * intros (-> & rest & ->). now exists rest.
      * intros (rest & [= -> ->]). eauto.
Qed.

(** X1: the pattern of the classifier matches a text exactly when it is
    [http://i.redd.it] or [https://i.redd.it] followed by anything at all:
    nothing is asked of what comes after the host name. *)
Theorem reddit_image_re_matches (url : string) :
  re_match reddit_image_re (PStr url) = Ok true <->
  exists rest,
    url = ("http://i.redd.it" ++ rest)%string \/ url = ("https://i.redd.it" ++ rest)%string.
Proof.
  cbn [re_match]. rewrite re_match_reddit_image. unfold url_is_image. split.
  - intros [= Hm]. apply orb_true_iff in Hm as [Hm|Hm];
      apply prefix_rest in Hm as [rest ->]; exists rest; tauto.
  - intros (rest & [-> | ->]); f_equal; apply orb_true_iff; [left | right];
      apply prefix_rest; now exists rest.
Qed.

(** The only results of the classifier are the three categories. *)
Lemma detect_format_category (hit : dict) (c : string) :
  detect_format hit = Ok c -> is_category c.
Proof.
  unfold detect_format, is_category.
  destruct (py_get (safe_source hit) "is_video") as [v|]; cbn [bind]; [|discriminate].
  destruct (py_truthy v); [intros [= <-]; tauto|].
  destruct (py_get_default (safe_source hit) "url" (PStr "")) as [u|]; cbn [bind];
    [|discriminate].
  destruct (re_match reddit_image_re (py_or u (PStr ""))) as [[|]|]; cbn [bind];
    [intros [= <-]; tauto | | discriminate].
  destruct (py_get (safe_source hit) "is_gallery") as [g|]; cbn [bind]; [|discriminate].
  destruct (py_truthy g); intros [= <-]; tauto.
Qed.

(** X2: the classifier reads nothing of a hit but the fields [is_video],
    [url] and [is_gallery] of its payload: two hits whose payloads are
    mappings that agree on these three are classified alike, or raise
    alike. *)
Theorem detect_format_three_fields (hit1 hit2 src1 src2 : dict) :
  hit1 !! "_source" = Some (PDict src1) ->
  hit2 !! "_source" = Some (PDict src2) ->
  src1 !! "is_video" = src2 !! "is_video" ->
  src1 !! "url" = src2 !! "url" ->
  src1 !! "is_gallery" = src2 !! "is_gallery" ->
  detect_format hit1 = detect_format hit2.
Proof.
  intros H1 H2 Hv Hu Hg.
  rewrite (detect_format_dict _ _ H1), (detect_format_dict _ _ H2).
  unfold dict_get, dict_get_default. now rewrite Hv, Hu, Hg.
Qed.

(** X3: the classifier raises in two cases only: [AttributeError] when
    [_source] is truthy and not a mapping, [TypeError] when the payload is a
    mapping without a truthy [is_video] whose [url] is truthy and not a
    text. *)
Theorem detect_format_raises_iff (hit : dict) (e : exn) :
  detect_format hit = Raised e <->
  (e = AttributeError /\
   exists v, hit !! "_source" = Some v /\ py_truthy v = true /\ forall d, v <> PDict d) \/
  (e = TypeError /\
   exists src u, hit !! "_source" = Some (PDict src) /\
     py_truthy (dict_get src "is_video") = false /\
     src !! "url" = Some u /\ py_truthy u = true /\ forall s, u <> PStr s).
Proof.
  split.
  - intros Hr. destruct (hit !! "_source") as [v|] eqn:Hv.
    + destruct (py_truthy v) eqn:Ht.
      * destruct v as [| | | | | |src];
          try (left; rewrite (detect_format_not_dict _ _ Hv Ht) in Hr by discriminate;
               injection Hr as <-; split; [reflexivity|]; eexists; split; [reflexivity|];
               split; [exact Ht | discriminate]).
        right. rewrite (detect_format_dict _ _ Hv), dict_get_default_url in Hr.
        destruct (py_truthy (dict_get src "is_video")) eqn:Hvideo; [discriminate|].
        destruct (url_text (dict_get src "url")) as [url|] eqn:Hu;
          [now destruct (url_is_image url || py_truthy (dict_get src "is_gallery"))|].
        injection Hr as <-. split; [reflexivity|]. exists src.
        unfold dict_get in Hu. destruct (src !! "url") as [u|] eqn:Hsu; [|discriminate].
        cbn [from_option id] in Hu. exists u.
        split; [reflexivity|]. split; [exact Hvideo|]. split; [reflexivity|]. split.
        -- unfold url_text in Hu. destruct (py_truthy u); [reflexivity|].
           now destruct u.
        -- intros s ->. discriminate.
      * rewrite detect_format_empty in Hr; [discriminate|].
        apply safe_source_falsy. intros v' Hv'. congruence.
    + rewrite detect_format_empty in Hr; [discriminate|].
      apply safe_source_falsy. intros v' Hv'. congruence.
  - intros [(-> & v & Hv & Ht & Hd) | (-> & src & u & Hsrc & Hvideo & Hu & Ht & Hs)].
    + now apply (detect_format_not_dict _ v).
    + rewrite (detect_format_dict _ _ Hsrc), dict_get_default_url, Hvideo.
      unfold dict_get. rewrite Hu. cbn [from_option id].
      unfold url_text. destruct u; rewrite ?Ht; try reflexivity. now destruct (Hs s).
Qed.

(** ** The loop *)

Lemma count_category_app (c : string) (l1 l2 : list (pyval * string)) :
  count_category c (l1 ++ l2) = count_category c l1 + count_category c l2.
Proof. unfold count_category. rewrite List.filter_app, length_app. lia. Qed.

Lemma count_category_one (c fmt : string) (id : pyval) :
  count_category c [(id, fmt)] = if String.eqb fmt c then 1 else 0.
Proof. unfold count_category. cbn. now destruct (String.eqb fmt c). Qed.

Section FurtherLoop.
Context {Timestamp : Type}.
Variable ut_timestamp : dict -> result (option Timestamp).
Variable ut_landing_pages : dict -> result pyval.
Variable ut_key_ids : dict -> result pyval.
Variable ut_impressions : dict -> result pyval.

#[local] Abbreviation body' :=
  (loop_body ut_timestamp ut_landing_pages ut_key_ids ut_impressions).
#[local] Abbreviation run' :=
  (loop ut_timestamp ut_landing_pages ut_key_ids ut_impressions).
#[local] Abbreviation ts_at' := (ts_of ut_timestamp).
#[local] Abbreviation urls_at' := (urls_of ut_landing_pages).
#[local] Abbreviation key_ids_at' := (key_ids_of ut_key_ids).
#[local] Abbreviation imp_at' := (imp_of ut_impressions).
#[local] Abbreviation bears' := (bears_landing_pages ut_landing_pages).

(** What the loop has put on the format list, the counters and the two flat
    lists when it returns. *)
Lemma loop_contents (docs : list dict) (st st' : locals) :
  run' docs st = Ok st' ->
  (exists new,
     Forall2 (fun hit e => e.1 = doc_id_of hit /\ detect_format hit = Ok e.2) docs new /\
     format_list st' = format_list st ++ new /\
     v_ct st' = v_ct st + count_category "video" new /\
     i_ct st' = i_ct st + count_category "image" new /\
     t_ct st' = t_ct st + count_category "text" new) /\
  landing_pages2 st' =
    landing_pages2 st ++ flat_map (fun hit => spread (urls_at' hit)) (List.filter bears' docs) /\
  ids st' = ids st ++ flat_map (fun hit => ids_items (key_ids_at' hit)) docs.
Proof.
  revert st. induction docs as [|hit docs IH]; intros st Hloop.
  - injection Hloop as <-. cbn. rewrite !app_nil_r. split; [|split; reflexivity].
    exists []. rewrite app_nil_r. unfold count_category. cbn.
    repeat split; try lia. constructor.
  - rewrite loop_cons in Hloop.
    destruct (body' st hit) as [st1|e] eqn:Hst1; [|discriminate]. cbn [bind] in Hloop.
    destruct (loop_body_inv _ _ _ _ _ _ _ Hst1) as [fmt Hfmt].
    destruct (loop_body_ok ut_timestamp ut_landing_pages ut_key_ids ut_impressions
                st hit fmt Hfmt)
      as (st1' & Hst1' & _ & _ & Hfl & Hct & Hlp & Hids & _).
    rewrite Hst1 in Hst1'. injection Hst1' as <-.
    destruct (IH st1 Hloop) as ((new & Hnew & Hfl' & Hv' & Hi' & Ht') & Hlp2' & Hids').
    split; [|split].
    + exists ((doc_id_of hit, fmt) :: new). split; [now constructor|].
      rewrite Hfl', Hfl, <- app_assoc. split; [reflexivity|].
      change ((doc_id_of hit, fmt) :: new) with ([(doc_id_of hit, fmt)] ++ new).
      rewrite !count_category_app, !count_category_one, Hv', Hi', Ht'.
      unfold count_format in Hct. cbn [fst snd] in Hct.
      set (cv := count_category "video" new). set (ci := count_category "image" new).
      set (ct := count_category "text" new).
      destruct (detect_format_category _ _ Hfmt) as [-> | [-> | ->]];
        cbn in Hct |- *; injection Hct as -> -> ->; repeat split; lia.
    + rewrite Hlp2'. unfold add_landing_pages in Hlp. cbn [fst snd] in Hlp.
      cbn [List.filter]. rewrite <- bears_landing_pages_urls.
      destruct (py_truthy (urls_at' hit)); injection Hlp as _ ->; [|reflexivity].
      cbn [flat_map]. rewrite app_assoc. f_equal. now destruct (urls_at' hit).
    + rewrite Hids', Hids, accumulate_ids_items, <- app_assoc. reflexivity.
Qed.
(** X4: when the loop returns, each of the three counters is the number of
    entries of the format list with its category, and the format list holds
    no other category. *)
Theorem format_counts_by_category (docs : list dict) (st : locals) :
  run' docs init = Ok st ->
  v_ct st = count_category "video" (format_list st) /\
  i_ct st = count_category "image" (format_list st) /\
  t_ct st = count_category "text" (format_list st) /\
  Forall (fun e => is_category e.2) (format_list st).
Proof.
  intros Hloop.
  destruct (loop_contents docs init st Hloop) as ((new & Hnew & Hfl & Hv & Hi & Ht) & _).
  cbn [init format_list v_ct i_ct t_ct app] in Hfl, Hv, Hi, Ht.
  rewrite Hfl, Hv, Hi, Ht. repeat split; try lia.
  clear -Hnew. induction Hnew as [|hit e docs new [_ He] _ IH]; constructor.
  - now apply (detect_format_category hit).
  - exact IH.
Qed.

(** X5: when the loop returns, the timestamp, format and impression lists
    are in stream order and aligned: the entry at position [i] of each is
    that of the hit at position [i], under its [_id] ([None] when it has
    none), with the timestamp and the impressions value extracted from it
    and the category the classifier gave it. *)
Theorem entries_aligned (docs : list dict) (st : locals) (i : nat) (hit : dict) :
  run' docs init = Ok st ->
  docs !! i = Some hit ->
  timestamp_list st !! i = Some (doc_id_of hit, ts_at' hit) /\
  impressions st !! i = Some (doc_id_of hit, imp_at' hit) /\
  exists fmt, format_list st !! i = Some (doc_id_of hit, fmt) /\ detect_format hit = Ok fmt.
Proof.
  intros Hloop Hi.
  destruct (loop_ok _ _ _ _ docs init st Hloop) as (_ & _ & Hts & _ & _ & _ & _ & Himp & _).
  destruct (loop_contents docs init st Hloop) as ((new & Hnew & Hfl & _) & _).
  cbn [init timestamp_list impressions format_list app] in Hts, Himp, Hfl.
  rewrite Hts, Himp, Hfl. split; [|split].
  - change (map ?f docs) with (f <$> docs). now rewrite list_lookup_fmap, Hi.
  - change (map ?f docs) with (f <$> docs). now rewrite list_lookup_fmap, Hi.
  - destruct (Forall2_lookup_l _ _ _ _ _ Hnew Hi) as ([id fmt] & He & Hid & Hfmt).
    cbn [fst snd] in Hid, Hfmt. subst id. now exists fmt.
Qed.

(** X7: the loop only appends and counts up: from whatever locals it
    starts, each list it returns begins with the list it started with, and
    no counter is smaller than it was. *)
Theorem loop_only_appends (docs : list dict) (st st' : locals) :
  run' docs st = Ok st' ->
  (exists new, timestamp_list st' = timestamp_list st ++ new) /\
  (exists new, format_list st' = format_list st ++ new) /\
  (exists new, landing_pages st' = landing_pages st ++ new) /\
  (exists new, landing_pages2 st' = landing_pages2 st ++ new) /\
  (exists new, ids st' = ids st ++ new) /\
  (exists new, impressions st' = impressions st ++ new) /\
  v_ct st <= v_ct st' /\ i_ct st <= i_ct st' /\ t_ct st <= t_ct st' /\
  doc_count st <= doc_count st'.
Proof.
  intros Hloop.
  destruct (loop_ok _ _ _ _ docs st st' Hloop) as (Hdc & _ & Hts & _ & Hlp & _ & _ & Himp & _).
  destruct (loop_contents docs st st' Hloop)
    as ((new & _ & Hfl & Hv & Hi & Ht) & Hlp2 & Hids).
  unfold count_category in Hv, Hi, Ht.
  repeat split; eauto; lia.
Qed.
End FurtherLoop.

(** X8: accumulating a list of key ids is accumulating its items one after
    the other, when none of the items is [None] or itself a list. *)
Theorem accumulate_ids_itemwise (ids_list l : list pyval) :
  Forall (fun v => is_scalar_id v = true) l ->
  accumulate_ids ids_list (PList l) = fold_left accumulate_ids l ids_list.
Proof.
  intros Hl. cbn [accumulate_ids]. revert ids_list.
  induction Hl as [|v l Hv _ IH]; intros ids_list; [now rewrite app_nil_r|].
  cbn [fold_left]. rewrite <- IH, accumulate_ids_items, <- app_assoc.
  now destruct v.
Qed.

Lemma accumulate_ids_itemwise_witness :
  accumulate_ids [PStr "k0"] (PList [PStr "k1"; PInt 2]) =
  fold_left accumulate_ids [PStr "k1"; PInt 2] [PStr "k0"].
Proof.
  apply (accumulate_ids_itemwise [PStr "k0"] [PStr "k1"; PInt 2]).
  repeat constructor.
Defined.

(** ** The ends of a list in order *)

Section AscendingEnds.
Context {A : Type}.
Variable ltb : A -> A -> bool.
Hypothesis ltb_irrefl : forall a, ltb a a = false.

Lemma ascending_filter (f : A -> bool) (l : list A) :
  ascending ltb l -> ascending ltb (List.filter f l).
Proof.
  induction 1 as [|x l Hl IH Hx]; [constructor|].
  cbn. destruct (f x); [|exact IH]. constructor; [exact IH|].
  rewrite Forall_forall in Hx |- *. intros y Hy. apply Hx.
  apply list_elem_of_In in Hy. apply filter_In in Hy as [Hy _]. now apply list_elem_of_In.
Qed.

(** No element is smaller than the first one. *)
Lemma ascending_first (x y : A) (l : list A) :
  ascending ltb (x :: l) -> In y (x :: l) -> ltb y x = false.
Proof.
  intros Hl [<- | Hy]; [apply ltb_irrefl | now apply (ascending_head ltb x y l)].
Qed.

(** The last element is smaller than none. *)
Lemma ascending_last (l : list A) (x z : A) :
  ascending ltb l -> last l = Some z -> In x l -> ltb z x = false.
Proof.
  induction 1 as [|a l Hl IH Ha]; [discriminate|].
  destruct l as [|b l].
  - intros [= <-] [<- | []]. apply ltb_irrefl.
  - change (last (a :: b :: l)) with (last (b :: l)). intros Hz [<- | Hx].
    + rewrite Forall_forall in Ha. apply Ha. apply list_elem_of_In.
      apply last_Some in Hz as [l' ->]. apply in_or_app. right. now left.
    + now apply IH.
Qed.
End AscendingEnds.

Lemma last_filter_keeps {A : Type} (f : A -> bool) (l : list A) (z : A) :
  last l = Some z -> f z = true -> last (List.filter f l) = Some z.
Proof.
  intros Hz Hf. apply last_Some in Hz as [l' ->].
  rewrite List.filter_app. cbn. rewrite Hf. apply last_snoc.
Qed.

Lemma filter_filter_implies {A : Type} (f g : A -> bool) (l : list A) :
  (forall x, f x = true -> g x = true) ->
  List.filter f (List.filter g l) = List.filter f l.
Proof.
  intros Hfg. induction l as [|x l IH]; [reflexivity|].
  cbn. destruct (g x) eqn:Hg; cbn; rewrite IH; [reflexivity|].
  destruct (f x) eqn:Hf; [|reflexivity]. now rewrite (Hfg x Hf) in Hg.
Qed.

(** ** The impressions aggregate and NaN *)

Lemma add_nan_l (x : float) : (nan + x)%float = nan.
Proof.
  apply Prim2SF_inj. rewrite add_spec.
  change (Prim2SF nan) with S754_nan. reflexivity.
Qed.

Lemma add_nan_r (x : float) : (x + nan)%float = nan.
Proof.
  apply Prim2SF_inj. rewrite add_spec.
  change (Prim2SF nan) with S754_nan. now destruct (Prim2SF x).
Qed.

Lemma fold_add_nan (xs : list float) : fold_left PrimFloat.add xs nan = nan.
Proof. induction xs as [|x xs IH]; [reflexivity|]. cbn. now rewrite add_nan_l. Qed.

Lemma fold_add_In_nan (xs : list float) (acc : float) :
  In nan xs -> fold_left PrimFloat.add xs acc = nan.
Proof.
  revert acc. induction xs as [|x xs IH]; intros acc; [intros []|].
  intros [-> | Hin]; cbn.
  - rewrite add_nan_r. apply fold_add_nan.
  - now apply IH.
Qed.

(** ** [main] and its summary *)

Section FurtherMain.
Context {Timestamp : Type} `{TimestampOps Timestamp}.
Variable ut_timestamp : dict -> result (option Timestamp).
Variable ut_landing_pages : dict -> result pyval.
Variable ut_key_ids : dict -> result pyval.
Variable ut_impressions : dict -> result pyval.

#[local] Abbreviation the_loop :=
  (loop ut_timestamp ut_landing_pages ut_key_ids ut_impressions).
#[local] Abbreviation the_main :=
  (main ut_timestamp ut_landing_pages ut_key_ids ut_impressions).

(** The timestamp entries of a stream, in stream order. *)
#[local] Abbreviation entries_of :=
  (map (fun hit => (doc_id_of hit, ts_of ut_timestamp hit))).

(** When [main] returns, its summary is read off the locals of the loop and
    the sorted timestamp entries. *)
Lemma main_inv (docs : list dict) (d : data.t Timestamp) :
  the_main docs = Ok d ->
  exists st,
    the_loop docs init = Ok st /\
    timestamp_list st = entries_of docs /\
    data.key_ids d = ids st /\
    data.landing_pages d = landing_pages2 st /\
    data.impressions_total d = imp_ct st /\
    data.start_date d = (start_last (insertion_sort entry_ltb (entries_of docs))).1 /\
    data.last_date d = (start_last (insertion_sort entry_ltb (entries_of docs))).2.
Proof.
  unfold main. intros Hmain.
  destruct (the_loop docs init) as [st|e] eqn:Hloop; [|discriminate].
  cbn [bind] in Hmain. unfold reduce in Hmain.
  rewrite timestamp_sort_returns in Hmain. cbn [bind] in Hmain.
  destruct (loop_ok _ _ _ _ docs init st Hloop) as (_ & _ & Hts & _).
  cbn [init timestamp_list app] in Hts. rewrite Hts in Hmain.
  destruct (start_last _) as [first final]. injection Hmain as <-.
  exists st. now repeat split.
Qed.

(** On an empty stream [main] returns the summary with no dates, zero
    counts, empty lists and the aggregate 0.0. *)
Lemma main_empty_stream :
  the_main [] =
  Ok {| data.type := "communications";
        data.key_ids := [];
        data.start_date := None;
        data.last_date := None;
        data.platform := "Reddit";
        data.main_format := {| video := 0; image := 0; text := 0 |};
        data.landing_pages := [];
        data.impressions_total := 0%float;
        data.impressions_detail := [];
        data.doc_count_processed := 0 |}.
Proof. reflexivity. Qed.

Lemma start_last_some (s : list (pyval * option Timestamp)) :
  s <> [] -> exists a b, start_last s = (Some a, Some b).
Proof.
  destruct s as [|e rest]; [congruence|]. intros _. unfold start_last.
  destruct (List.filter _ (e :: rest)) as [|y l] eqn:Hf.
  - destruct (last (e :: rest)) as [b|] eqn:Hl; [now exists e, b|].
    now apply last_None in Hl.
  - destruct (last (y :: l)) as [b|] eqn:Hl; [now exists e, b|].
    now apply last_None in Hl.
Qed.

(** X9: the two dates of the summary are [None] for the empty stream and
    for no other: as soon as there is a hit, with or without a timestamp,
    both name an entry. *)
Theorem date_range_none_iff_empty (docs : list dict) (d : data.t Timestamp) :
  the_main docs = Ok d ->
  (data.start_date d = None <-> docs = []) /\
  (data.last_date d = None <-> docs = []).
Proof.
  intros Hmain.
  destruct (main_inv docs d Hmain) as (st & _ & _ & _ & _ & _ & -> & ->).
  destruct docs as [|hit docs]; [now split|].
  destruct (start_last_some (insertion_sort entry_ltb (entries_of (hit :: docs))))
    as (a & b & ->).
  - intros Hnil. pose proof (insertion_sort_perm entry_ltb (entries_of (hit :: docs))) as Hp.
    rewrite Hnil in Hp. apply Permutation_nil in Hp. discriminate.
  - cbn [fst snd]. split; split; discriminate.
Qed.

(** X11: the key ids of the summary are, in stream order, the items of
    what the key-ids extractor returned for each hit: none where it raised
    or returned [None], the items of a list, the value itself otherwise. *)
Theorem key_ids_flat (docs : list dict) (d : data.t Timestamp) :
  the_main docs = Ok d ->
  data.key_ids d = flat_map (fun hit => ids_items (key_ids_of ut_key_ids hit)) docs.
Proof.
  intros Hmain. destruct (main_inv docs d Hmain) as (st & Hloop & _ & -> & _).
  destruct (loop_contents _ _ _ _ docs init st Hloop) as (_ & _ & Hids). exact Hids.
Qed.

(** X12: the landing pages of the summary are, in stream order, the items
    of the truthy values the landing-pages extractor returned: the items of
    a list, the value itself otherwise (a text is one item). *)
Theorem landing_pages_flat (docs : list dict) (d : data.t Timestamp) :
  the_main docs = Ok d ->
  data.landing_pages d =
    flat_map (fun hit => spread (urls_of ut_landing_pages hit))
             (List.filter (bears_landing_pages ut_landing_pages) docs).
Proof.
  intros Hmain. destruct (main_inv docs d Hmain) as (st & Hloop & _ & _ & -> & _).
  destruct (loop_contents _ _ _ _ docs init st Hloop) as (_ & Hlp2 & _). exact Hlp2.
Qed.

(** X13: one impressions value that [float] turns into NaN makes the
    aggregate of the summary NaN, whatever the other values are. *)
Theorem impressions_total_nan (docs : list dict) (d : data.t Timestamp) (hit : dict) :
  the_main docs = Ok d ->
  In hit docs ->
  imp_of ut_impressions hit <> PNone ->
  py_float (imp_of ut_impressions hit) = Ok nan ->
  data.impressions_total d = nan.
Proof.
  intros Hmain Hin Hnone Hnan.
  destruct (main_inv docs d Hmain) as (st & Hloop & _ & _ & _ & -> & _).
  destruct (loop_ok _ _ _ _ docs init st Hloop) as (_ & _ & _ & _ & _ & _ & _ & _ & Hic).
  rewrite Hic, fold_add_impression. apply fold_add_In_nan.
  apply list_elem_of_In, list_elem_of_omap. exists (imp_of ut_impressions hit). split.
  - apply list_elem_of_In, in_map, Hin.
  - unfold contribution. rewrite Hnan. now destruct (imp_of ut_impressions hit).
Qed.

(** X14: when no hit has a timestamp (the extractor raised or returned
    [None] for each), the sort leaves the timestamp entries as the loop
    appended them, in stream order, and the date range is the first and the
    last hit of the stream. *)
Theorem date_range_without_timestamps (docs : list dict) (d : data.t Timestamp) :
  the_main docs = Ok d ->
  (forall hit, In hit docs -> ts_of ut_timestamp hit = None) ->
  (exists st,
     the_loop docs init = Ok st /\
     timestamp_list st = map (fun hit => (doc_id_of hit, None)) docs /\
     list_sort tuple_lt sort_key (timestamp_list st) = Ok (timestamp_list st) /\
     reduce st = Ok (timestamp_list st, d)) /\
  data.start_date d = (fun hit => (doc_id_of hit, None)) <$> head docs /\
  data.last_date d = (fun hit => (doc_id_of hit, None)) <$> last docs.
Proof.
  intros Hmain Hnone.
  assert (entries_of docs = map (fun hit => (doc_id_of hit, None)) docs) as Hentries.
  { apply map_ext_in. intros hit Hhit. now rewrite (Hnone hit Hhit). }
  set (f := fun hit : dict => (doc_id_of hit, @None Timestamp)) in *.
  assert (insertion_sort entry_ltb (map f docs) = map f docs) as Hsorted.
  { apply insertion_sort_ascending. clear.
    induction docs as [|h docs IH]; constructor; [exact IH|].
    apply Forall_forall. intros x Hx. apply list_elem_of_In, in_map_iff in Hx as (h' & <- & _).
    reflexivity. }
  split.
  - unfold main in Hmain.
    destruct (the_loop docs init) as [st|e] eqn:Hloop; [|discriminate].
    cbn [bind] in Hmain.
    destruct (loop_ok _ _ _ _ docs init st Hloop) as (_ & _ & Hts & _).
    cbn [init timestamp_list app] in Hts. rewrite Hentries in Hts.
    exists st. split; [reflexivity|]. split; [exact Hts|].
    assert (list_sort tuple_lt sort_key (timestamp_list st) = Ok (timestamp_list st)) as Hsort
      by now rewrite timestamp_sort_returns, Hts, Hsorted.
    split; [exact Hsort|].
    unfold reduce in Hmain |- *. rewrite Hsort in Hmain |- *. cbn [bind] in Hmain |- *.
    destruct (start_last (timestamp_list st)) as [first final].
    now injection Hmain as <-.
  - destruct (main_inv docs d Hmain) as (st & _ & _ & _ & _ & _ & -> & ->).
    rewrite Hentries, Hsorted. clear.
    assert (Forall (fun x => x.2 = None) (map f docs)) as Hall.
    { apply Forall_forall. intros x Hx.
      apply list_elem_of_In, in_map_iff in Hx as (h & <- & _). reflexivity. }
    unfold start_last. destruct docs as [|h docs]; [split; reflexivity|].
    change (map f (h :: docs)) with (f h :: map f docs) at 1.
    cbn [fst snd]. rewrite (filter_all_none _ Hall). split; [reflexivity|].
    change (map f (h :: docs)) with (f <$> (h :: docs)). apply fmap_last.
Qed.
End FurtherMain.

(** ** The date range under the timestamp order *)

Section FurtherDates.
Context {Timestamp : Type} `{TimestampOrder Timestamp}.
Variable ut_timestamp : dict -> result (option Timestamp).
Variable ut_landing_pages : dict -> result pyval.
Variable ut_key_ids : dict -> result pyval.
Variable ut_impressions : dict -> result pyval.

#[local] Abbreviation main' :=
  (main ut_timestamp ut_landing_pages ut_key_ids ut_impressions).
#[local] Abbreviation entries :=
  (map (fun hit => (doc_id_of hit, ts_of ut_timestamp hit))).

Lemma sorted_entries_ascending (l : list (pyval * option Timestamp)) :
  ascending entry_ltb (insertion_sort entry_ltb l).
Proof.
  apply insertion_sort_is_ascending;
    [apply entry_ltb_irrefl | apply entry_ltb_trans | apply entry_ltb_neg_trans].
Qed.

Lemma sorted_entries_stable (t : option Timestamp) (l : list (pyval * option Timestamp)) :
  List.filter (fun e => py_eq t e.2) (insertion_sort entry_ltb l) =
  List.filter (fun e => py_eq t e.2) l.
Proof.
  rewrite <- (filter_ext _ _ (tied_py_eq (PNone, t)) l),
          <- (filter_ext _ _ (tied_py_eq (PNone, t)) (insertion_sort entry_ltb l)).
  apply insertion_sort_stable, entry_ltb_neg_trans.
Qed.

(** The two dates on a sorted list with an entry that has a timestamp. *)
Lemma start_last_bounds (s : list (pyval * option Timestamp)) (x : pyval * option Timestamp)
    (t : Timestamp) :
  ascending entry_ltb s -> In x s -> x.2 = Some t ->
  exists id0 t0 id1 t1,
    (start_last s).1 = Some (id0, Some t0) /\
    (start_last s).2 = Some (id1, Some t1) /\
    In (id0, Some t0) s /\ In (id1, Some t1) s /\
    ts_ltb t t0 = false /\ ts_ltb t1 t = false /\
    last (List.filter (fun e => negb (is_None e.2)) s) = Some (id1, Some t1).
Proof.
  intros Hs Hx Ht. destruct x as [idx tx]. cbn in Ht. subst tx.
  destruct s as [|[id0 ts0] rest] eqn:Hseq; [destruct Hx|]. rewrite <- Hseq in *.
  assert (exists t0, ts0 = Some t0 /\ ts_ltb t t0 = false) as (t0 & -> & Hlow).
  { rewrite Hseq in Hs, Hx.
    pose proof (ascending_first entry_ltb entry_ltb_irrefl _ _ _ Hs Hx) as Hcmp.
    destruct ts0 as [t0|]; [|discriminate]. exists t0. split; [reflexivity|].
    now rewrite entry_ltb_some in Hcmp. }
  set (non_none := List.filter (fun e => negb (is_None e.2)) s).
  assert (In (idx, Some t) non_none) as Hxn by (apply filter_In; now split).
  destruct (last non_none) as [[id1 ts1]|] eqn:Hlast;
    [|apply last_None in Hlast; rewrite Hlast in Hxn; destruct Hxn].
  assert (In (id1, ts1) non_none) as H1n.
  { apply last_Some in Hlast as [l' ->]. apply in_or_app. right. now left. }
  pose proof H1n as H1s. apply filter_In in H1s as [H1s Hsome].
  destruct ts1 as [t1|]; [|discriminate].
  pose proof (ascending_last entry_ltb entry_ltb_irrefl non_none _ _
                (ascending_filter entry_ltb _ _ Hs) Hlast Hxn) as Hhigh.
  rewrite entry_ltb_some in Hhigh.
  exists id0, t0, id1, t1. split; [now rewrite Hseq|]. split.
  - unfold start_last. rewrite Hseq at 1. cbn [snd]. fold non_none.
    destruct non_none; [destruct Hxn | exact Hlast].
  - split; [rewrite Hseq; now left|]. now repeat split.
Qed.

(** X15: with comparable timestamps, when some hit has a timestamp the two
    dates of the summary are entries of the stream that have one, no hit
    has a timestamp before that of [start_date], and none has one after that
    of [last_date]. *)
Theorem date_range_bounds (docs : list dict) (d : data.t Timestamp) (hit : dict)
    (t : Timestamp) :
  main' docs = Ok d ->
  In hit docs -> ts_of ut_timestamp hit = Some t ->
  exists id0 t0 id1 t1,
    data.start_date d = Some (id0, Some t0) /\
    data.last_date d = Some (id1, Some t1) /\
    In (id0, Some t0) (entries docs) /\ In (id1, Some t1) (entries docs) /\
    ts_ltb t t0 = false /\ ts_ltb t1 t = false.
Proof.
  intros Hmain Hin Hts.
  destruct (main_inv _ _ _ _ docs d Hmain) as (st & _ & _ & _ & _ & _ & -> & ->).
  pose proof (insertion_sort_perm entry_ltb (entries docs)) as Hperm.
  assert (In (doc_id_of hit, Some t) (insertion_sort entry_ltb (entries docs))) as Hx.
  { apply (Permutation_in _ (Permutation_sym Hperm)). rewrite <- Hts.
    now apply (in_map (fun hit => (doc_id_of hit, ts_of ut_timestamp hit))). }
  destruct (start_last_bounds _ _ t (sorted_entries_ascending _) Hx eq_refl)
    as (id0 & t0 & id1 & t1 & Hs & Hl & Hin0 & Hin1 & Hlow & Hhigh & _).
  exists id0, t0, id1, t1. repeat split; try assumption.
  - now apply (Permutation_in _ Hperm).
  - now apply (Permutation_in _ Hperm).
Qed.

(** X16: with comparable timestamps, among the hits that share the
    timestamp of [start_date] the summary names the first of the stream,
    and among those that share the timestamp of [last_date] the last. *)
Theorem date_range_ties (docs : list dict) (d : data.t Timestamp) :
  main' docs = Ok d ->
  (forall id0 t0, data.start_date d = Some (id0, Some t0) ->
     head (List.filter (fun e => py_eq (Some t0) e.2) (entries docs)) = Some (id0, Some t0)) /\
  (forall id1 t1, data.last_date d = Some (id1, Some t1) ->
     last (List.filter (fun e => py_eq (Some t1) e.2) (entries docs)) = Some (id1, Some t1)).
Proof.
  intros Hmain.
  destruct (main_inv _ _ _ _ docs d Hmain) as (st & _ & _ & _ & _ & _ & -> & ->).
  set (s := insertion_sort entry_ltb (entries docs)).
  split.
  - intros id0 t0 Hstart. rewrite <- sorted_entries_stable. fold s.
    destruct s as [|e rest]; [discriminate|].
    cbn in Hstart. injection Hstart as ->.
    cbn [List.filter snd py_eq]. now rewrite ts_eqb_refl.
  - intros id1 t1 Hlast. rewrite <- sorted_entries_stable. fold s.
    assert (In (id1, Some t1) s) as Hin.
    { unfold start_last in Hlast. destruct s as [|e rest] eqn:Hs; [discriminate|].
      rewrite <- Hs in *. cbn [snd] in Hlast.
      destruct (List.filter _ s) as [|y l'] eqn:Hf.
      - apply last_Some in Hlast as [l' Hl']. rewrite Hl'. apply in_or_app. right. now left.
      - rewrite <- Hf in Hlast. apply last_Some in Hlast as [l'' Hl''].
        assert (In (id1, Some t1) (List.filter (fun t => negb (is_None t.2)) s)) as Hin
          by (rewrite Hl''; apply in_or_app; right; now left).
        now apply filter_In in Hin as [Hin _]. }
    destruct (start_last_bounds s _ t1 (sorted_entries_ascending _) Hin eq_refl)
      as (_ & _ & id1' & t1' & _ & Hl & _ & _ & _ & _ & Hnn).
    rewrite Hlast in Hl. injection Hl as <- <-.
    rewrite <- (filter_filter_implies (fun e => py_eq (Some t1) e.2)
                  (fun e => negb (is_None e.2)) s).
    + apply last_filter_keeps; [exact Hnn|]. cbn. apply ts_eqb_refl.
    + intros [idx [tx|]]; cbn; [reflexivity | discriminate].
Qed.
End FurtherDates.

(** ** The further properties at the sample run *)

Lemma detect_format_three_fields_witness :
  detect_format hit_image = detect_format hit_image_titled.
Proof.
  apply (detect_format_three_fields hit_image hit_image_titled
           payload_image payload_image_titled); reflexivity.
Defined.

Lemma format_counts_by_category_witness :
  exists st,
    sample_loop sample_docs init = Ok st /\
    v_ct st = count_category "video" (format_list st) /\
    i_ct st = count_category "image" (format_list st) /\
    t_ct st = count_category "text" (format_list st).
Proof.
  eexists. split; [vm_compute; reflexivity|].
  match goal with
  | |- context [v_ct ?st] =>
      destruct (format_counts_by_category sample_timestamp (field "landing_pages")
                  (field "key_ids") (field "impressions") sample_docs st)
        as (Hv & Hi & Ht & _); [vm_compute; reflexivity|]
  end.
  split; [exact Hv|]. split; [exact Hi | exact Ht].
Defined.

Lemma entries_aligned_witness :
  exists st,
    sample_loop sample_docs init = Ok st /\
    timestamp_list st !! 1%nat = Some (PStr "2", Some 50) /\
    impressions st !! 1%nat = Some (PStr "2", PStr "bad").
Proof.
  eexists. split; [vm_compute; reflexivity|].
  match goal with
  | |- context [timestamp_list ?st] =>
      destruct (entries_aligned sample_timestamp (field "landing_pages")
                  (field "key_ids") (field "impressions") sample_docs st 1%nat doc2)
        as (Hts & Himp & _); [vm_compute; reflexivity | reflexivity |]
  end.
  split; [rewrite Hts | rewrite Himp]; vm_compute; reflexivity.
Defined.

Lemma loop_only_appends_witness :
  exists st1 st2,
    sample_loop [doc1; doc2] init = Ok st1 /\
    sample_loop [doc3; doc4] st1 = Ok st2 /\
    (exists new, impressions st2 = impressions st1 ++ new) /\
    doc_count st1 <= doc_count st2.
Proof.
  eexists. eexists. split; [vm_compute; reflexivity|]. split; [vm_compute; reflexivity|].
  match goal with
  | |- context [impressions ?st2 = impressions ?st1 ++ _] =>
      destruct (loop_only_appends sample_timestamp (field "landing_pages")
                  (field "key_ids") (field "impressions") [doc3; doc4] st1 st2)
        as (_ & _ & _ & _ & _ & Himp & _ & _ & _ & Hdc); [vm_compute; reflexivity|]
  end.
  split; [exact Himp | exact Hdc].
Defined.

Lemma key_ids_flat_witness :
  exists d,
    sample_main sample_docs = Ok d /\
    data.key_ids d = [PStr "k1"; PStr "k2"; PStr "k3"].
Proof.
  eexists. split; [vm_compute; reflexivity|].
  match goal with
  | |- data.key_ids ?d = _ =>
      rewrite (key_ids_flat sample_timestamp (field "landing_pages")
                 (field "key_ids") (field "impressions") sample_docs d)
  end; vm_compute; reflexivity.
Defined.

Lemma landing_pages_flat_witness :
  exists d,
    sample_main sample_docs = Ok d /\
    data.landing_pages d =
      [PStr "https://a.example"; PStr "https://b.example"; PStr "https://c.example"].
Proof.
  eexists. split; [vm_compute; reflexivity|].
  match goal with
  | |- data.landing_pages ?d = _ =>
      rewrite (landing_pages_flat sample_timestamp (field "landing_pages")
                 (field "key_ids") (field "impressions") sample_docs d)
  end; vm_compute; reflexivity.
Defined.

Lemma impressions_total_nan_witness :
  exists d,
    sample_main [doc1; doc_nan_impressions; doc2] = Ok d /\
    data.impressions_total d = nan.
Proof.
  eexists. split; [vm_compute; reflexivity|].
  match goal with
  | |- data.impressions_total ?d = _ =>
      apply (impressions_total_nan sample_timestamp (field "landing_pages")
               (field "key_ids") (field "impressions")
               [doc1; doc_nan_impressions; doc2] d doc_nan_impressions)
  end.
  - vm_compute. reflexivity.
  - right. left. reflexivity.
  - vm_compute. discriminate.
  - vm_compute. reflexivity.
Defined.

Lemma date_range_without_timestamps_witness :
  exists d,
    sample_main [doc4; doc3; doc_blank_impressions] = Ok d /\
    list_sort tuple_lt sort_key [(PStr "4", @None Z); (PStr "3", None); (PStr "5", None)] =
      Ok [(PStr "4", None); (PStr "3", None); (PStr "5", None)] /\
    data.start_date d = Some (PStr "4", None) /\
    data.last_date d = Some (PStr "5", None).
Proof.
  eexists. split; [vm_compute; reflexivity|].
  match goal with
  | |- _ /\ data.start_date ?d = _ /\ _ =>
      destruct (date_range_without_timestamps sample_timestamp (field "landing_pages")
                  (field "key_ids") (field "impressions")
                  [doc4; doc3; doc_blank_impressions] d)
        as ((st & _ & Hts & Hsort & _) & Hstart & Hlast)
  end.
  - vm_compute. reflexivity.
  - intros hit [<- | [<- | [<- | []]]]; vm_compute; reflexivity.
  - split; [rewrite Hts in Hsort; exact Hsort|].
    split; [rewrite Hstart | rewrite Hlast]; vm_compute; reflexivity.
Defined.

Lemma date_range_bounds_witness :
  exists d id0 t0 id1 t1,
    sample_main sample_docs = Ok d /\
    data.start_date d = Some (id0, Some t0) /\
    data.last_date d = Some (id1, Some t1) /\
    ts_ltb 100 t0 = false /\ ts_ltb t1 100 = false.
Proof.
  destruct (date_range_bounds sample_timestamp (field "landing_pages")
              (field "key_ids") (field "impressions") sample_docs
              {| data.type := "communications";
                 data.key_ids := [PStr "k1"; PStr "k2"; PStr "k3"];
                 data.start_date := Some (PStr "2", Some 50);
                 data.last_date := Some (PStr "1", Some 100);
                 data.platform := "Reddit";
                 data.main_format := {| video := 1; image := 1; text := 2 |};
                 data.landing_pages :=
                   [PStr "https://a.example"; PStr "https://b.example";
                    PStr "https://c.example"];
                 data.impressions_total := 16%float;
                 data.impressions_detail :=
                   [(PStr "1", PInt 10); (PStr "2", PStr "bad"); (PStr "3", PNone);
                    (PStr "4", PInt 5)];
                 data.doc_count_processed := 4 |} doc1 100)
    as (id0 & t0 & id1 & t1 & Hstart & Hlast & _ & _ & Hlow & Hhigh).
  - vm_compute. reflexivity.
  - left. reflexivity.
  - vm_compute. reflexivity.
  - eexists _, id0, t0, id1, t1. split; [vm_compute; reflexivity|]. now repeat split.
Defined.

Lemma date_range_ties_witness :
  exists d,
    sample_main [doc_late; doc_early; doc1; doc2] = Ok d /\
    data.start_date d = Some (PStr "12", Some 50) /\
    data.last_date d = Some (PStr "1", Some 100) /\
    head (List.filter (fun e => py_eq (Some 50) e.2)
            (map (fun hit => (doc_id_of hit, ts_of sample_timestamp hit))
                 [doc_late; doc_early; doc1; doc2]))
      = Some (PStr "12", Some 50) /\
    last (List.filter (fun e => py_eq (Some 100) e.2)
            (map (fun hit => (doc_id_of hit, ts_of sample_timestamp hit))
                 [doc_late; doc_early; doc1; doc2]))
      = Some (PStr "1", Some 100).
Proof.
  eexists. split; [vm_compute; reflexivity|].
  match goal with
  | |- data.start_date ?d = _ /\ _ =>
      destruct (date_range_ties sample_timestamp (field "landing_pages")
                  (field "key_ids") (field "impressions")
                  [doc_late; doc_early; doc1; doc2] d)
        as (Hstart & Hlast); [vm_compute; reflexivity|];
      pose proof (Hstart (PStr "12") 50 eq_refl) as Hfirst;
      pose proof (Hlast (PStr "1") 100 eq_refl) as Hfinal
  end.
  split; [reflexivity|]. split; [reflexivity|]. split; [exact Hfirst | exact Hfinal].
Defined.

Lemma date_range_none_iff_empty_witness :
  exists d,
    sample_main sample_docs = Ok d /\
    (data.start_date d = None <-> sample_docs = []).
Proof.
  eexists. split; [vm_compute; reflexivity|].
  match goal with
  | |- data.start_date ?d = None <-> _ =>
      apply (date_range_none_iff_empty sample_timestamp (field "landing_pages")
               (field "key_ids") (field "impressions") sample_docs d)
  end.
  vm_compute. reflexivity.
Defined.
